(** * Multivendor e-commerce API server: request logging, error and success
      formatting, and start-up

    A shallow embedding of
    - [src/server/src/middlewares/global-error.middleware.ts]
      ([globalErrorHandler], [logRequest]),
    - [src/unnamed/part_001] ([errorHandler], [successHandler]),
    - [src/server/src/db/db.ts] ([connectDB]) and
    - [src/unnamed/part_000] (the entry point).

    The handlers are written in a small state-and-exception monad over a
    [World] that holds what the TypeScript code reaches for: the process
    environment, the request and response objects (both mutable and shared
    between the middlewares), the random sources, the clocks and the logger
    sink. *)

From Stdlib Require Import String Ascii List ZArith Bool Lia DecimalString Floats.
Import ListNotations.
Local Open Scope string_scope.
Set Warnings "-register-all".

(** ** JavaScript values *)

Module Js.

(** The values the handlers inspect. Numbers are the integral ones that occur
    (status codes, driver error codes, retry delays); an array is an object. *)
Inductive value : Type :=
| VUndefined
| VNull
| VBool (b : bool)
| VNum (n : Z)
| VStr (s : string)
| VObj (props : list (string * value)).

(** An object: its properties in insertion order. *)
Definition obj : Type := list (string * value).

(** ToBoolean. *)
Definition truthy (v : value) : bool :=
  match v with
  | VUndefined | VNull => false
  | VBool b => b
  | VNum n => negb (n =? 0)%Z
  | VStr s => negb (s =? "")
  | VObj _ => true
  end.

(** [o[k]] on an object. *)
Fixpoint get (o : obj) (k : string) : value :=
  match o with
  | [] => VUndefined
  | (k', v) :: o' => if k' =? k then v else get o' k
  end.

(** [o[k] = v]: an existing property keeps its place. *)
Fixpoint put (o : obj) (k : string) (v : value) : obj :=
  match o with
  | [] => [(k, v)]
  | (k', v') :: o' => if k' =? k then (k, v) :: o' else (k', v') :: put o' k v
  end.

(** [Object.keys(o).length > 0]. *)
Definition nonempty (o : obj) : bool :=
  match o with [] => false | _ :: _ => true end.

Definition show_number (n : Z) : string := NilZero.string_of_int (Z.to_int n).

(** ToString, as a template literal or a computed property key applies it. *)
Definition ToString (v : value) : string :=
  match v with
  | VUndefined => "undefined"
  | VNull => "null"
  | VBool true => "true"
  | VBool false => "false"
  | VNum n => show_number n
  | VStr s => s
  | VObj _ => "[object Object]"
  end.

Definition index_keys (s : string) : list string :=
  map (fun i => show_number (Z.of_nat i)) (seq 0 (String.length s)).

(** [Object.keys(v)]: a TypeError ([None]) on [undefined] and [null]. *)
Definition own_keys (v : value) : option (list string) :=
  match v with
  | VUndefined | VNull => None
  | VObj o => Some (map fst o)
  | VStr s => Some (index_keys s)
  | VBool _ | VNum _ => Some []
  end.

Definition char_at (s : string) (k : string) : value :=
  match find (fun i => show_number (Z.of_nat i) =? k) (seq 0 (String.length s)) with
  | Some i =>
      match String.get i s with
      | Some c => VStr (String c EmptyString)
      | None => VUndefined
      end
  | None => if k =? "length" then VNum (Z.of_nat (String.length s)) else VUndefined
  end.

(** [v[k]] on a value that is neither [undefined] nor [null]. *)
Definition member (v : value) (k : string) : value :=
  match v with
  | VObj o => get o k
  | VStr s => char_at s k
  | _ => VUndefined
  end.

(** [xs[0]] on an array of strings. *)
Definition first (xs : list string) : value :=
  match xs with [] => VUndefined | x :: _ => VStr x end.

(** [a || b] on values already computed. *)
Definition or_value (a b : value) : value := if truthy a then a else b.

End Js.

Import Js.

(** ** The objects shared by the handlers *)

Module ProcessEnv.
Record t : Type := mk {
  NODE_ENV : option string;
  LOG_SAMPLING_RATE : option string;
  MONGO_URI : option string;
  PORT : option string
}.
End ProcessEnv.

(** [process.env.NODE_ENV !== "production"]. *)
Definition not_production (e : ProcessEnv.t) : bool :=
  match ProcessEnv.NODE_ENV e with
  | Some s => negb (s =? "production")
  | None => true
  end.

Module Request.
Record t : Type := mk {
  method : string;
  originalUrl : string;
  ip : value;
  headers : obj;
  query : obj;
  body : value
}.

Definition with_headers (h : obj) (r : t) : t :=
  mk (method r) (originalUrl r) (ip r) h (query r) (body r).

(** [req.get(name)] for a lower-case name other than referer. *)
Definition header (r : t) (name : string) : value := get (headers r) name.
End Request.

(** interface LogData; [responseTime] keeps the [process.hrtime] difference
    (seconds, nanoseconds) that the floating-point expression
    [Number((s * 1000 + ns / 1e6).toFixed(2))] is computed from. *)
Module LogData.
Record t : Type := mk {
  correlationId : value;
  method : string;
  url : string;
  ip : value;
  userAgent : value;
  query : option obj;
  body : option obj;
  statusCode : option Z;
  responseTime : option (Z * Z);
  timestamp : string
}.

Definition finished (status : Z) (elapsed : Z * Z) (d : t) : t :=
  mk (correlationId d) (method d) (url d) (ip d) (userAgent d) (query d) (body d)
     (Some status) (Some elapsed) (timestamp d).
End LogData.

(** interface ErrorResponse. An optional key that is absent is [None]; the
    stack key can be present with the value [undefined]. *)
Module ErrorResponse.
Record t : Type := mk {
  success : bool;
  errorCode : string;
  message : string;
  details : option obj;
  stack : option value
}.
End ErrorResponse.

(** The object [successHandler] passes to [res.json]. *)
Module SuccessResponse.
Record t : Type := mk {
  success : bool;
  message : string;
  data : value
}.
End SuccessResponse.

(** The object [errorHandler] passes to [logger.error]. *)
Module ErrorLog.
Record t : Type := mk {
  correlationId : value;
  method : string;
  url : string;
  message : string;
  statusCode : Z;
  errorCode : string;
  ip : value;
  userAgent : value;
  stack : value;
  details : obj;
  timestamp : string
}.
End ErrorLog.

(** The object the catch block of [logRequest] passes to [logger.error]. *)
Module MiddlewareFailure.
Record t : Type := mk {
  correlationId : value;
  message : string;
  error : string;
  stack : value;
  timestamp : string
}.
End MiddlewareFailure.

(** The logger methods the handlers call: [logger.info], [logger.error]. *)
Module Level.
Inductive t : Type := info | error.
End Level.

Inductive LogRecord : Type :=
| RequestLog (d : LogData.t) (headers : option obj)
| ErrorRecord (e : ErrorLog.t)
| FailureRecord (f : MiddlewareFailure.t).

Definition record_correlationId (r : LogRecord) : value :=
  match r with
  | RequestLog d _ => LogData.correlationId d
  | ErrorRecord e => ErrorLog.correlationId e
  | FailureRecord f => MiddlewareFailure.correlationId f
  end.

(** What [res.json] was given. *)
Inductive Body : Type :=
| ErrorBody (r : ErrorResponse.t)
| SuccessBody (r : SuccessResponse.t).

(** The closure [logRequest] registers with [res.on("finish", ...)]: the
    variables it captured. *)
Record FinishListener : Type := mkListener {
  captured_logData : LogData.t;
  captured_startTime : Z * Z
}.

Module Response.
Record t : Type := mk {
  statusCode : Z;
  sent : option Body;
  on_finish : list FinishListener
}.
End Response.

(** A runtime exception: an instance of [Error] with its message and stack
    (the TypeError of [Object.keys(undefined)], or the one sanitize-html
    throws on a value it cannot read as text). *)
Record exn : Type := mkExn {
  exn_message : string;
  exn_stack : string
}.

(** What a call that can throw comes to. *)
Inductive Attempt (A : Type) : Type :=
| Returned (a : A)
| Thrown (e : exn).

Arguments Returned {A} a.
Arguments Thrown {A} e.

(** The rest of the statements runs only when the call returned. *)
Definition and_then {A B : Type} (x : Attempt A) (k : A -> Attempt B) : Attempt B :=
  match x with
  | Returned a => k a
  | Thrown e => Thrown e
  end.

Definition returns {A : Type} (x : Attempt A) : bool :=
  match x with Returned _ => true | Thrown _ => false end.

(** ** The world *)

Record World : Type := mkWorld {
  env : ProcessEnv.t;
  req : Request.t;
  res : Response.t;
  (** [uuidv4()]: the identifiers it will return, and how many were drawn *)
  uuid_source : nat -> string;
  uuid_drawn : nat;
  (** [Math.random()] *)
  random_source : nat -> float;
  random_drawn : nat;
  (** [new Date().toISOString()] and [process.hrtime()] *)
  now : string;
  hrtime : Z * Z;
  (** the calls made to the logger, oldest first *)
  sink : list (Level.t * LogRecord);
  (** the calls made to [next], oldest first: [next()] is [None] *)
  next_calls : list (option exn)
}.

Definition with_req (r : Request.t) (w : World) : World :=
  mkWorld (env w) r (res w) (uuid_source w) (uuid_drawn w) (random_source w)
          (random_drawn w) (now w) (hrtime w) (sink w) (next_calls w).

Definition with_res (r : Response.t) (w : World) : World :=
  mkWorld (env w) (req w) r (uuid_source w) (uuid_drawn w) (random_source w)
          (random_drawn w) (now w) (hrtime w) (sink w) (next_calls w).

Definition with_uuid_drawn (n : nat) (w : World) : World :=
  mkWorld (env w) (req w) (res w) (uuid_source w) n (random_source w)
          (random_drawn w) (now w) (hrtime w) (sink w) (next_calls w).

Definition with_random_drawn (n : nat) (w : World) : World :=
  mkWorld (env w) (req w) (res w) (uuid_source w) (uuid_drawn w) (random_source w)
          n (now w) (hrtime w) (sink w) (next_calls w).

Definition with_sink (s : list (Level.t * LogRecord)) (w : World) : World :=
  mkWorld (env w) (req w) (res w) (uuid_source w) (uuid_drawn w) (random_source w)
          (random_drawn w) (now w) (hrtime w) s (next_calls w).

Definition with_next_calls (c : list (option exn)) (w : World) : World :=
  mkWorld (env w) (req w) (res w) (uuid_source w) (uuid_drawn w) (random_source w)
          (random_drawn w) (now w) (hrtime w) (sink w) c.

(** ** The monad of the handlers *)

Inductive Result (A : Type) : Type :=
| Ok (a : A) (w : World)
| Throw (e : exn) (w : World).

Arguments Ok {A} a w.
Arguments Throw {A} e w.

Definition M (A : Type) : Type := World -> Result A.

Definition ret {A : Type} (a : A) : M A := fun w => Ok a w.

Definition bind {A B : Type} (c : M A) (k : A -> M B) : M B :=
  fun w =>
    match c w with
    | Ok a w' => k a w'
    | Throw e w' => Throw e w'
    end.

Definition throw {A : Type} (e : exn) : M A := fun w => Throw e w.

(** try body catch (e) handler *)
Definition try_catch {A : Type} (body : M A) (handler : exn -> M A) : M A :=
  fun w =>
    match body w with
    | Ok a w' => Ok a w'
    | Throw e w' => handler e w'
    end.

Declare Scope js_scope.
Delimit Scope js_scope with js.
Notation "x <- c ;; k" := (bind c (fun x => k))
  (at level 61, c at next level, right associativity) : js_scope.
Notation "c ;; k" := (bind c (fun _ => k))
  (at level 61, right associativity) : js_scope.
Local Open Scope js_scope.

Definition world_of {A : Type} (r : Result A) : World :=
  match r with Ok _ w => w | Throw _ w => w end.

(** Reading and writing the world. *)
Definition read {A : Type} (f : World -> A) : M A := fun w => Ok (f w) w.
Definition modify (f : World -> World) : M unit := fun w => Ok tt (f w).

(** [uuidv4()]. *)
Definition uuidv4 : M string :=
  fun w => Ok (uuid_source w (uuid_drawn w)) (with_uuid_drawn (S (uuid_drawn w)) w).

(** [Math.random()]. *)
Definition Math_random : M float :=
  fun w => Ok (random_source w (random_drawn w)) (with_random_drawn (S (random_drawn w)) w).

(** [logger[level](record)]: the logger of "@/utils/logger" is a sink that
    keeps what it is given. *)
Definition logger (level : Level.t) (r : LogRecord) : M unit :=
  modify (fun w => with_sink (sink w ++ [(level, r)]) w).

(** [next()] and [next(err)]: Express runs the rest of the chain and catches
    what it throws, so the call returns. *)
Definition next (err : option exn) : M unit :=
  modify (fun w => with_next_calls (next_calls w ++ [err]) w).

(** [res.status(code).json(body)]. *)
Definition res_status_json (code : Z) (b : Body) : M unit :=
  modify (fun w => with_res (Response.mk code (Some b) (Response.on_finish (res w))) w).

(** [res.on("finish", listener)]. *)
Definition res_on_finish (l : FinishListener) : M unit :=
  modify (fun w =>
    with_res (Response.mk (Response.statusCode (res w)) (Response.sent (res w))
                          (Response.on_finish (res w) ++ [l])) w).

(** [req.headers[name] = v]. *)
Definition set_header (name : string) (v : value) : M unit :=
  modify (fun w => with_req (Request.with_headers (put (Request.headers (req w)) name v) (req w)) w).

(** A call that can throw, made by a handler. *)
Definition attempt {A : Type} (x : Attempt A) : M A :=
  match x with Returned a => ret a | Thrown e => throw e end.

(** [a || b()] where the right operand has effects. *)
Definition or_else (a : value) (b : M value) : M value :=
  if truthy a then ret a else b.

(** ** Error values *)

(** Modelled from the spec: the class AppError, imported from "./AppError",
    is not among the sources. The spec describes an application-raised error
    as a distinguished error kind carrying its own status code, message and
    an operational flag: an instance has a numeric [statusCode] and a
    boolean [isOperational]; its message is the [message] property that
    every error value may have. *)
Record AppErrorFields : Type := mkAppError {
  app_statusCode : Z;
  app_isOperational : bool
}.

(** The constructors [errorHandler] tests with [instanceof] besides [Error]:
    [mongoose.Error.ValidationError] (whose [errors] maps each failed path to
    its field error), [mongoose.Error.CastError] and [AppError]. *)
Inductive ErrorClass : Type :=
| Unclassified
| ValidationError (errors : list (string * obj))
| CastError
| AppError (own : AppErrorFields).

(** A value handed to the error formatter. It is never [undefined] or
    [null], on which the first property read would throw: Express passes
    only truthy values to an error middleware. [instanceof_Error] is the
    test [error instanceof Error]; [fields] holds the properties a read can
    see: name, message, code, stack, retryAfter, keyValue, path, value. A
    thrown primitive has none. *)
Record ErrorValue : Type := mkError {
  instanceof_Error : bool;
  cls : ErrorClass;
  fields : obj
}.

(** [v === "s"] and [v === n]. *)
Definition is_string (v : value) (s : string) : bool :=
  match v with VStr s' => s' =? s | _ => false end.

Definition is_number (v : value) (n : Z) : bool :=
  match v with VNum n' => (n' =? n)%Z | _ => false end.

Module ERROR_MESSAGES.
Definition validationFailed : string := "Validation failed".
Definition invalidField (field value : string) : string :=
  "Invalid " ++ field ++ ": " ++ value.
Definition invalidToken : string := "Invalid token. Please login again.".
Definition tokenExpired : string := "Your token has expired. Please login again.".
Definition rateLimitExceeded : string := "Too many requests. Please try again later.".
Definition duplicateEntry : string := "Duplicate entry found.".
End ERROR_MESSAGES.

(** Modelled from the spec: the interfaces IErrorHandler and ISuccessHandler
    of "@/types" are not among the sources. The fields are the ones the
    handlers destructure; the request and the response are those of the
    world; status code, message and payload are optional and get the
    defaults written in the handlers' parameter lists. *)
Module IErrorHandler.
Record t : Type := mk {
  statusCode : option Z;
  message : option string;
  error : ErrorValue
}.
End IErrorHandler.

Module ISuccessHandler.
Record t : Type := mk {
  statusCode : option Z;
  message : option string;
  data : option value
}.
End ISuccessHandler.

(** The variables [errorHandler] assigns while it classifies. *)
Module Locals.
Record t : Type := mk {
  statusCode : Z;
  message : string;
  errorDetails : obj;
  errorCode : string
}.

Definition with_message (m : string) (l : t) : t :=
  mk (statusCode l) m (errorDetails l) (errorCode l).
End Locals.

Definition default {A : Type} (d : A) (o : option A) : A :=
  match o with Some a => a | None => d end.

(** [Object.keys(undefined)]. *)
Definition TypeError_not_an_object : exn :=
  mkExn "Cannot convert undefined or null to object"
        "TypeError: Cannot convert undefined or null to object".

Section Server.

(** The two library functions the handlers call and this repository does not
    define. [sanitize] of sanitize-html returns a string or throws: it reads
    its argument as text, and throws a TypeError on a value it cannot read
    so (an array, say). [parseFloat] always returns. *)
Variable sanitize : value -> Attempt string.
Variable parseFloat : string -> float.

(** Whether [sanitize(v)] returns. *)
Definition sanitizes (v : value) : bool := returns (sanitize v).

(** What [sanitize(v)] returns, when it does. *)
Definition sanitized (v : value) : string :=
  match sanitize v with Returned s => s | Thrown _ => "" end.

(** ** The error formatter ([src/unnamed/part_001]) *)

(** One step of the [reduce] over the field errors:
    [{...acc, [err.path]: sanitize(err.message)}]. *)
Definition add_field_error (acc : Attempt obj) (err : obj) : Attempt obj :=
  and_then acc (fun details =>
  and_then (sanitize (get err "message")) (fun text =>
  Returned (put details (ToString (get err "path")) (VStr text)))).

(** Mongoose Validation Error *)
Definition validation_rule (e : ErrorValue) (l : Locals.t) : Attempt Locals.t :=
  match cls e with
  | ValidationError errors =>
      and_then (fold_left add_field_error (map snd errors) (Returned [])) (fun details =>
      Returned (Locals.mk 400 ERROR_MESSAGES.validationFailed details "ERR-VALIDATION-400"))
  | _ => Returned l
  end.

(** Mongoose Cast Error *)
Definition cast_rule (e : ErrorValue) (l : Locals.t) : Attempt Locals.t :=
  match cls e with
  | CastError =>
      and_then (sanitize (get (fields e) "value")) (fun text =>
      Returned
        (Locals.mk 400
           (ERROR_MESSAGES.invalidField (ToString (get (fields e) "path")) text)
           (Locals.errorDetails l) "ERR-CAST-400"))
  | _ => Returned l
  end.

(** JWT Errors *)
Definition jwt_invalid_rule (e : ErrorValue) (l : Locals.t) : Locals.t :=
  if is_string (get (fields e) "name") "JsonWebTokenError"
  then Locals.mk 401 ERROR_MESSAGES.invalidToken (Locals.errorDetails l) "ERR-JWT-INVALID-401"
  else l.

Definition jwt_expired_rule (e : ErrorValue) (l : Locals.t) : Locals.t :=
  if is_string (get (fields e) "name") "TokenExpiredError"
  then Locals.mk 401 ERROR_MESSAGES.tokenExpired (Locals.errorDetails l) "ERR-JWT-EXPIRED-401"
  else l.

(** Rate Limit Error *)
Definition rate_limit_rule (e : ErrorValue) (l : Locals.t) : Locals.t :=
  if is_string (get (fields e) "code") "RATE_LIMIT_EXCEEDED"
  then Locals.mk 429 ERROR_MESSAGES.rateLimitExceeded
         [("retryAfter", or_value (get (fields e) "retryAfter") (VNum 60))]
         "ERR-RATE-LIMIT-429"
  else l.

(** The test of the duplicate-key branch. *)
Definition is_duplicate_key (e : ErrorValue) : bool :=
  is_string (get (fields e) "name") "MongoServerError"
  && is_number (get (fields e) "code") 11000.

(** Database Connection Error (the duplicate-key branch). [Object.keys]
    throws a TypeError when [error.keyValue] is [undefined] or [null]; then
    [sanitize] is called on the value under the first key. *)
Definition duplicate_rule (e : ErrorValue) (l : Locals.t) : Attempt Locals.t :=
  if is_duplicate_key e
  then
    let keyValue := get (fields e) "keyValue" in
    match own_keys keyValue with
    | None => Thrown TypeError_not_an_object
    | Some ks =>
        and_then (sanitize (member keyValue (ToString (first ks)))) (fun text =>
        Returned
          (Locals.mk 409 ERROR_MESSAGES.duplicateEntry
             [("field", first ks); ("value", VStr text)]
             "ERR-DUPLICATE-409"))
    end
  else Returned l.

(** Custom App Error *)
Definition app_rule (e : ErrorValue) (l : Locals.t) : Attempt Locals.t :=
  match cls e with
  | AppError own =>
      and_then (sanitize (get (fields e) "message")) (fun text =>
      Returned
        (Locals.mk (app_statusCode own) text
           [("isOperational", VBool (app_isOperational own))]
           ("ERR-APP-" ++ show_number (app_statusCode own))))
  | _ => Returned l
  end.

(** The test of the last branch:
    [error instanceof Error && !errorDetails.message]. *)
Definition fallback_applies (e : ErrorValue) (l : Locals.t) : bool :=
  instanceof_Error e && negb (truthy (get (Locals.errorDetails l) "message")).

(** Fallback for native errors *)
Definition fallback_rule (e : ErrorValue) (l : Locals.t) : Attempt Locals.t :=
  if fallback_applies e l
  then and_then (sanitize (get (fields e) "message")) (fun text =>
       Returned (Locals.with_message text l))
  else Returned l.

(** The locals before the first test: the defaults of the parameters and
    the code built from a fresh identifier [u]. *)
Definition initial_locals (a : IErrorHandler.t) (u : string) : Locals.t :=
  let statusCode := default 500%Z (IErrorHandler.statusCode a) in
  Locals.mk statusCode
    (default "Internal Server Error" (IErrorHandler.message a))
    []
    ("ERR-" ++ show_number statusCode ++ "-" ++ substring 0 8 u).

(** The branches before the fallback, in the order of the source; the first
    call that throws ends the classification. *)
Definition earlier_rules (e : ErrorValue) (l : Locals.t) : Attempt Locals.t :=
  and_then (validation_rule e l) (fun l =>
  and_then (cast_rule e l) (fun l =>
  and_then (duplicate_rule e
              (rate_limit_rule e (jwt_expired_rule e (jwt_invalid_rule e l)))) (fun l =>
  app_rule e l))).

Definition classify (e : ErrorValue) (l : Locals.t) : Attempt Locals.t :=
  and_then (earlier_rules e l) (fallback_rule e).

(** Whether one of the branches before the fallback is taken. *)
Definition matches_a_rule (e : ErrorValue) : bool :=
  match cls e with Unclassified => false | _ => true end
  || is_string (get (fields e) "name") "JsonWebTokenError"
  || is_string (get (fields e) "name") "TokenExpiredError"
  || is_string (get (fields e) "code") "RATE_LIMIT_EXCEEDED"
  || is_duplicate_key e.

(** The calls of the validation and the cast branch return: [sanitize] on
    the message of every field error, and on [error.value]. *)
Definition mongoose_texts_sanitize (e : ErrorValue) : bool :=
  match cls e with
  | ValidationError errors =>
      forallb (fun err => sanitizes (get err "message")) (map snd errors)
  | CastError => sanitizes (get (fields e) "value")
  | _ => true
  end.

(** The calls of the duplicate-key branch return: [Object.keys] on
    [error.keyValue], and [sanitize] on the value under its first key. *)
Definition keyValue_sanitizes (e : ErrorValue) : bool :=
  negb (is_duplicate_key e)
  || match own_keys (get (fields e) "keyValue") with
     | Some ks => sanitizes (member (get (fields e) "keyValue") (ToString (first ks)))
     | None => false
     end.

(** The call of the application branch and of the fallback returns:
    [sanitize] on [error.message]. *)
Definition message_sanitizes (e : ErrorValue) : bool :=
  negb (instanceof_Error e || match cls e with AppError _ => true | _ => false end)
  || sanitizes (get (fields e) "message").

(** Every call the classification of [e] can make returns. *)
Definition responds (e : ErrorValue) : bool :=
  mongoose_texts_sanitize e && keyValue_sanitizes e && message_sanitizes e.

Definition error_log (w : World) (correlationId : value) (e : ErrorValue) (l : Locals.t)
  : ErrorLog.t :=
  ErrorLog.mk correlationId
    (Request.method (req w)) (Request.originalUrl (req w))
    (Locals.message l) (Locals.statusCode l) (Locals.errorCode l)
    (Request.ip (req w)) (Request.header (req w) "user-agent")
    (if not_production (env w) then get (fields e) "stack" else VUndefined)
    (Locals.errorDetails l)
    (now w).

Definition error_response (w : World) (e : ErrorValue) (l : Locals.t) : ErrorResponse.t :=
  ErrorResponse.mk false (Locals.errorCode l) (Locals.message l)
    (if nonempty (Locals.errorDetails l) then Some (Locals.errorDetails l) else None)
    (if not_production (env w) then Some (get (fields e) "stack") else None).

Definition errorHandler (a : IErrorHandler.t) : M unit :=
  let e := IErrorHandler.error a in
  inbound <- read (fun w => Request.header (req w) "x-correlation-id") ;;
  correlationId <- or_else inbound (u <- uuidv4 ;; ret (VStr u)) ;;
  u <- uuidv4 ;;
  l <- attempt (classify e (initial_locals a u)) ;;
  entry <- read (fun w => error_log w correlationId e l) ;;
  logger Level.error (ErrorRecord entry) ;;
  response <- read (fun w => error_response w e l) ;;
  res_status_json (Locals.statusCode l) (ErrorBody response).

Definition successHandler (a : ISuccessHandler.t) : M unit :=
  res_status_json (default 200%Z (ISuccessHandler.statusCode a))
    (SuccessBody
       (SuccessResponse.mk true
          (default "Success" (ISuccessHandler.message a))
          (default VNull (ISuccessHandler.data a)))).

(** ** The middlewares ([global-error.middleware.ts]) *)

Definition globalErrorHandler (err : ErrorValue) : M unit :=
  errorHandler (IErrorHandler.mk None None err).

(** Sensitive query/body parameters to mask *)
Definition SENSITIVE_PARAMS : list string := ["password"; "token"; "apiKey"; "secret"].

(** Routes to skip logging (e.g., health checks, static files) *)
Definition SKIP_LOGGING_ROUTES : list string := ["/health"; "/ping"; "/static"].

(** Sampling rate for high-traffic scenarios (1.0 = log all, 0.1 = log 10%) *)
Definition LOG_SAMPLING_RATE (e : ProcessEnv.t) : float :=
  match ProcessEnv.LOG_SAMPLING_RATE e with
  | Some s => if negb (s =? "") then parseFloat s else 1.0%float
  | None => 1.0%float
  end.

(** [SKIP_LOGGING_ROUTES.some((route) => req.originalUrl.startsWith(route))] *)
Definition skip_listed (url : string) : bool :=
  existsb (fun route => prefix route url) SKIP_LOGGING_ROUTES.

(** The value of the sampling test in [w]: the next random number is above
    a rate that is below one. *)
Definition sampling_skips (w : World) : bool :=
  PrimFloat.ltb (LOG_SAMPLING_RATE (env w)) 1.0%float
  && PrimFloat.ltb (LOG_SAMPLING_RATE (env w)) (random_source w (random_drawn w)).

(** [LOG_SAMPLING_RATE < 1.0 && Math.random() > LOG_SAMPLING_RATE]: the
    random number is drawn only when the rate is below one. *)
Definition sampled_out : M bool :=
  rate <- read (fun w => LOG_SAMPLING_RATE (env w)) ;;
  if PrimFloat.ltb rate 1.0%float
  then (r <- Math_random ;; ret (PrimFloat.ltb rate r))
  else ret false.

(** Mask sensitive query parameters *)
Definition mask_query (query : obj) : obj :=
  fold_left
    (fun sanitizedQuery param =>
       if truthy (get sanitizedQuery param)
       then put sanitizedQuery param (VStr "****")
       else sanitizedQuery)
    SENSITIVE_PARAMS query.

(** One round of the loop over [SENSITIVE_PARAMS] on the copy of the body:
    [if (sanitizedBody[param]) sanitizedBody[param] = sanitize(sanitizedBody[param])]. *)
Definition sanitize_param (acc : Attempt obj) (param : string) : Attempt obj :=
  and_then acc (fun sanitizedBody =>
  if truthy (get sanitizedBody param)
  then and_then (sanitize (get sanitizedBody param)) (fun text =>
       Returned (put sanitizedBody param (VStr text)))
  else Returned sanitizedBody).

(** The loop: it ends at the first call of [sanitize] that throws. *)
Definition sanitize_body (body : obj) : Attempt obj :=
  fold_left sanitize_param SENSITIVE_PARAMS (Returned body).

(** Mask sensitive body parameters (only in development for POST/PUT) *)
Definition sanitized_body (e : ProcessEnv.t) (r : Request.t) : Attempt (option obj) :=
  if not_production e && existsb (String.eqb (Request.method r)) ["POST"; "PUT"]
  then
    match Request.body r with
    | VObj o => and_then (sanitize_body o) (fun b => Returned (Some b))
    | _ => Returned None
    end
  else Returned None.

(** [process.hrtime(start)] when [process.hrtime()] is [current]. *)
Definition hrtime_since (start current : Z * Z) : Z * Z :=
  let s := (fst current - fst start)%Z in
  let ns := (snd current - snd start)%Z in
  if (ns <? 0)%Z then ((s - 1)%Z, (ns + 1000000000)%Z) else (s, ns).

(** The listener of the response's finish event. *)
Definition run_finish_listener (l : FinishListener) : M unit :=
  elapsed <- read (fun w => hrtime_since (captured_startTime l) (hrtime w)) ;;
  status <- read (fun w => Response.statusCode (res w)) ;;
  let logData := LogData.finished status elapsed (captured_logData l) in
  let logLevel := if (400 <=? status)%Z then Level.error else Level.info in
  headers <- read (fun w =>
    if not_production (env w) then Some (Request.headers (req w)) else None) ;;
  logger logLevel (RequestLog logData headers).

Fixpoint run_listeners (ls : list FinishListener) : M unit :=
  match ls with
  | [] => ret tt
  | l :: ls' => run_finish_listener l ;; run_listeners ls'
  end.

(** The response emits finish: the registered listeners run in order. *)
Definition emit_finish : M unit :=
  ls <- read (fun w => Response.on_finish (res w)) ;;
  run_listeners ls.

(** Generate or use existing correlation ID *)
Definition choose_correlationId : M value :=
  x <- read (fun w => Request.header (req w) "x-correlation-id") ;;
  c <- read (fun w => Request.header (req w) "correlation-id") ;;
  or_else (or_value x c) (u <- uuidv4 ;; ret (VStr u)).

(** Prepare initial log data *)
Definition initial_logData (w : World) (correlationId : value) (sanitizedBody : option obj)
  : LogData.t :=
  let sanitizedQuery := mask_query (Request.query (req w)) in
  LogData.mk correlationId
    (Request.method (req w)) (Request.originalUrl (req w)) (Request.ip (req w))
    (Request.header (req w) "user-agent")
    (if nonempty sanitizedQuery then Some sanitizedQuery else None)
    sanitizedBody
    None None
    (now w).

(** The body of the try block. *)
Definition logRequest_body : M unit :=
  url <- read (fun w => Request.originalUrl (req w)) ;;
  if skip_listed url then next None
  else
    skip <- sampled_out ;;
    if skip then next None
    else
      correlationId <- choose_correlationId ;;
      set_header "x-correlation-id" correlationId ;;
      startTime <- read hrtime ;;
      body <- read (fun w => sanitized_body (env w) (req w)) ;;
      sanitizedBody <- attempt body ;;
      logData <- read (fun w => initial_logData w correlationId sanitizedBody) ;;
      res_on_finish (mkListener logData startTime) ;;
      next None.

(** The catch block: log middleware errors to prevent crashes. *)
Definition logRequest_catch (err : exn) : M unit :=
  inbound <- read (fun w => Request.header (req w) "x-correlation-id") ;;
  correlationId <- or_else inbound (u <- uuidv4 ;; ret (VStr u)) ;;
  failure <- read (fun w =>
    MiddlewareFailure.mk correlationId "Error in logRequest middleware"
      (exn_message err)
      (if not_production (env w) then VStr (exn_stack err) else VUndefined)
      (now w)) ;;
  logger Level.error (FailureRecord failure) ;;
  next (Some err).

Definition logRequest : M unit := try_catch logRequest_body logRequest_catch.

(** ** What the middleware computes, as functions of the world it starts in *)

(** The correlation id [logRequest] settles on in [w]. *)
Definition chosen_correlationId (w : World) : value :=
  let x := Request.header (req w) "x-correlation-id" in
  let c := Request.header (req w) "correlation-id" in
  if truthy x then x
  else if truthy c then c
  else VStr (uuid_source w (uuid_drawn w)).

(** What a finish listener hands to the logger in [w]. *)
Definition finish_record (w : World) (l : FinishListener) : Level.t * LogRecord :=
  let status := Response.statusCode (res w) in
  (if (400 <=? status)%Z then Level.error else Level.info,
   RequestLog
     (LogData.finished status (hrtime_since (captured_startTime l) (hrtime w))
        (captured_logData l))
     (if not_production (env w) then Some (Request.headers (req w)) else None)).

(** The step both loops over [SENSITIVE_PARAMS] take when nothing throws: a
    truthy value is replaced by [f] of it. *)
Definition replace_truthy (f : value -> value) (o : obj) (param : string) : obj :=
  if truthy (get o param) then put o param (f (get o param)) else o.

(** [sanitize] returns on every truthy value the object [o] holds under one
    of the names [ps]. *)
Definition values_sanitize (ps : list string) (o : obj) : bool :=
  forallb (fun p => negb (truthy (get o p)) || sanitizes (get o p)) ps.

(** The body branch of [logRequest] runs to its end on the request [r]: it
    is not entered, or [sanitize] returns on every truthy value the body
    holds under a sensitive name. *)
Definition body_sanitizes (e : ProcessEnv.t) (r : Request.t) : bool :=
  negb (not_production e && existsb (String.eqb (Request.method r)) ["POST"; "PUT"])
  || match Request.body r with
     | VObj o => values_sanitize SENSITIVE_PARAMS o
     | _ => true
     end.

(** The copy of the body [logRequest] keeps when the body branch runs to its
    end: every truthy value under a sensitive name is what [sanitize]
    returned for it. *)
Definition kept_body (e : ProcessEnv.t) (r : Request.t) : option obj :=
  if not_production e && existsb (String.eqb (Request.method r)) ["POST"; "PUT"]
  then
    match Request.body r with
    | VObj o => Some (fold_left (replace_truthy (fun v => VStr (sanitized v))) SENSITIVE_PARAMS o)
    | _ => None
    end
  else None.

(** The world after the sampling test: a random number was drawn when the
    rate is below one. *)
Definition after_sampling (w : World) : World :=
  if PrimFloat.ltb (LOG_SAMPLING_RATE (env w)) 1.0%float
  then with_random_drawn (S (random_drawn w)) w
  else w.

(** The request once [logRequest] has written the correlation id back. *)
Definition tagged_request (w : World) : Request.t :=
  Request.with_headers
    (put (Request.headers (req w)) "x-correlation-id" (chosen_correlationId w)) (req w).

(** The world once [logRequest] has chosen the correlation id and written
    it back: the one in which the body branch runs. *)
Definition tagged_world (w : World) : World :=
  let w1 := after_sampling w in
  let w2 :=
    if truthy (or_value (Request.header (req w) "x-correlation-id")
                        (Request.header (req w) "correlation-id"))
    then w1
    else with_uuid_drawn (S (uuid_drawn w1)) w1 in
  with_req (tagged_request w) w2.

(** The listener [logRequest] registers for the request of [w], when the
    body branch left [sanitizedBody]. *)
Definition registered_listener (w : World) (sanitizedBody : option obj) : FinishListener :=
  mkListener
    (initial_logData (with_req (tagged_request w) w) (chosen_correlationId w) sanitizedBody)
    (hrtime w).

(** The world [logRequest] leaves when it logs the request of [w]. *)
Definition logged_world (w : World) (sanitizedBody : option obj) : World :=
  let w3 := tagged_world w in
  let w4 :=
    with_res
      (Response.mk (Response.statusCode (res w)) (Response.sent (res w))
         (Response.on_finish (res w) ++ [registered_listener w sanitizedBody])%list)
      w3 in
  with_next_calls (next_calls w ++ [None])%list w4.

(** The world the catch block leaves when the body branch threw [err]. *)
Definition failure_world (w : World) (err : exn) : World :=
  world_of (logRequest_catch err (tagged_world w)).

End Server.
(** ** Start-up ([db.ts] and the entry point)

    The entry point is one synchronous script; [connectDB] is an async
    function that the script calls and does not await. An async function
    runs synchronously up to its first [await]; what follows the [await]
    runs as a job of its own once the awaited promise has settled, and no
    job starts before the running script has returned. The process is the
    list of what it has done so far and the jobs it still has to run. *)

Module Startup.

(** What the process does that can be seen from outside. *)
Inductive Effect : Type :=
| Use (middleware : string)
| Connect (uri : option string)
| Route (method path : string)
| Listen (port : string)
| Stdout (line : string)
| Stderr (line : string)
| Exit (code : Z).

(** What [mongoose.connect] can reject with, by the test the catch block
    makes: a [mongoose.Error], another [Error], or any other value (as the
    template literal prints it). *)
Inductive Rejection : Type :=
| MongooseError (message : string)
| OtherError (message : string)
| NotAnError (printed : string).

(** How the attempt ends, and when. A connection, and a rejection that the
    driver reports after it has tried the network, settle after the callback
    of [listen] has run. A rejection that needs no I/O (no URI, a malformed
    one) settles at once, and the continuation of [connectDB] can then run
    before the callback of [listen]: [RejectedBeforeListening]. *)
Inductive ConnectOutcome : Type :=
| Connected (host : string)
| Rejected (r : Rejection)
| RejectedBeforeListening (r : Rejection).

(** The continuations the script leaves behind. *)
Inductive Job : Type :=
| ListenCallback (port : string)
| AfterConnect.

Record Process : Type := mkProcess {
  trace : list Effect;
  pending : list Job;
  exit_code : option Z
}.

Definition started : Process := mkProcess [] [] None.

(** An effect of a process that has not exited. *)
Definition perform (e : Effect) (p : Process) : Process :=
  match exit_code p with
  | Some _ => p
  | None => mkProcess (trace p ++ [e]) (pending p) (exit_code p)
  end.

Definition schedule (j : Job) (p : Process) : Process :=
  mkProcess (trace p) (pending p ++ [j]) (exit_code p).

(** [process.exit(code)]. *)
Definition process_exit (code : Z) (p : Process) : Process :=
  match exit_code p with
  | Some _ => p
  | None => mkProcess (trace p ++ [Exit code]) [] (Some code)
  end.

(** [connectDB()] up to its [await]. *)
Definition connectDB_call (e : ProcessEnv.t) (p : Process) : Process :=
  schedule AfterConnect (perform (Connect (ProcessEnv.MONGO_URI e)) p).

(** The catch block of [connectDB]. *)
Definition connectDB_catch (r : Rejection) (p : Process) : Process :=
  match r with
  | MongooseError message =>
      process_exit 1 (perform (Stderr ("Mongoose Error: " ++ message)) p)
  | OtherError message =>
      process_exit 1 (perform (Stderr ("Error: " ++ message)) p)
  | NotAnError printed =>
      process_exit 1 (perform (Stderr ("Unexpected Error: " ++ printed)) p)
  end.

(** [connectDB] after its [await]: the rest of the try block, or the catch
    block. *)
Definition connectDB_resume (o : ConnectOutcome) (p : Process) : Process :=
  match o with
  | Connected host => perform (Stdout ("MongoDB Connected: " ++ host)) p
  | Rejected r | RejectedBeforeListening r => connectDB_catch r p
  end.

(** [process.env.PORT || 3000], as printed. *)
Definition PORT (e : ProcessEnv.t) : string :=
  match ProcessEnv.PORT e with
  | Some s => if negb (s =? "") then s else "3000"
  | None => "3000"
  end.

(** The script of the entry point, in its later form (the earlier one lacks
    the [globalErrorHandler] line). *)
Definition entry_point (e : ProcessEnv.t) (p : Process) : Process :=
  let p := perform (Use "cors") p in
  let p := perform (Use "express.json") p in
  let p := perform (Use "express.urlencoded") p in
  let p := perform (Use "globalErrorHandler") p in
  let p := connectDB_call e p in
  let p := perform (Route "GET" "/") p in
  schedule (ListenCallback (PORT e)) (perform (Listen (PORT e)) p).

Definition run_job (o : ConnectOutcome) (j : Job) (p : Process) : Process :=
  match j with
  | ListenCallback port =>
      perform (Stdout ("Server is running on  http://localhost:" ++ port)) p
  | AfterConnect => connectDB_resume o p
  end.

(** The jobs run one at a time, and a job of a process that has exited does
    nothing. The callback of [listen] is due as soon as the script has
    returned, the continuation of [connectDB] when the promise has settled:
    after the callback, unless the outcome is [RejectedBeforeListening]. *)
Definition run_pending (o : ConnectOutcome) (p : Process) : Process :=
  let listening := filter (fun j => match j with ListenCallback _ => true | _ => false end) (pending p) in
  let connecting := filter (fun j => match j with AfterConnect => true | _ => false end) (pending p) in
  let jobs :=
    match o with
    | RejectedBeforeListening _ => connecting ++ listening
    | _ => listening ++ connecting
    end%list in
  fold_left (fun p j => run_job o j p) jobs (mkProcess (trace p) [] (exit_code p)).

(** The process from its start to the settling of the connection attempt. *)
Definition startup (e : ProcessEnv.t) (o : ConnectOutcome) : Process :=
  run_pending o (entry_point e started).

(** [a] is done before [b]. *)
Definition before (a b : Effect) (t : list Effect) : Prop :=
  exists t1 t2 t3, t = (t1 ++ a :: t2 ++ b :: t3)%list.

End Startup.

(** ** What the error formatter computes, as functions of the world it starts in *)

(** The world after [errorHandler] has settled the correlation id: an
    identifier is drawn only when the request carries none. *)
Definition after_correlation (w : World) : World :=
  if truthy (Request.header (req w) "x-correlation-id")
  then w
  else with_uuid_drawn (S (uuid_drawn w)) w.

(** [req.headers["x-correlation-id"] || uuidv4()] in [w]. *)
Definition formatter_correlationId (w : World) : value :=
  if truthy (Request.header (req w) "x-correlation-id")
  then Request.header (req w) "x-correlation-id"
  else VStr (uuid_source w (uuid_drawn w)).

(** The identifier [errorHandler] builds the default error code from. *)
Definition formatter_code_uuid (w : World) : string :=
  uuid_source w (uuid_drawn (after_correlation w)).

(** The body of the response that was sent, if it is an error envelope. *)
Definition sent_error (w : World) : option ErrorResponse.t :=
  match Response.sent (res w) with
  | Some (ErrorBody r) => Some r
  | _ => None
  end.

(** The error codes of the branches that assign a constant. *)
Definition category_codes : list string :=
  ["ERR-VALIDATION-400"; "ERR-CAST-400"; "ERR-JWT-INVALID-401";
   "ERR-JWT-EXPIRED-401"; "ERR-RATE-LIMIT-429"; "ERR-DUPLICATE-409"].

(** ** Concrete requests, errors and worlds *)

(** A stand-in for sanitize-html on the concrete inputs below. Text comes
    back as it is, with the characters "&", "<" and ">" as entities: tags
    are not modelled, and no input below has one. A number is read as its
    decimal, [undefined] and [null] give the empty string, and an array with
    elements (an object whose first key is "0") makes the parser throw. *)
Fixpoint escape_text (s : string) : string :=
  match s with
  | EmptyString => EmptyString
  | String c s' =>
      (if Ascii.eqb c "&" then "&amp;"
       else if Ascii.eqb c "<" then "&lt;"
       else if Ascii.eqb c ">" then "&gt;"
       else String c EmptyString) ++ escape_text s'
  end.

(** The TypeError of the parser when it is given an array (the wording is
    the parser's own and no statement depends on it). *)
Definition TypeError_not_text : exn :=
  mkExn "this.buffer.charCodeAt is not a function"
        "TypeError: this.buffer.charCodeAt is not a function".

Definition plain_text (v : value) : Attempt string :=
  match v with
  | VStr s => Returned (escape_text s)
  | VNum n => Returned (show_number n)
  | VObj (("0", _) :: _) => Thrown TypeError_not_text
  | _ => Returned ""
  end.

(** A stand-in for [parseFloat] that knows one rate. *)
Definition parse_rate (s : string) : float :=
  if s =? "0.5" then 0.5%float else nan.

Definition sample_uuid (n : nat) : string :=
  match n with
  | O => "3f2504e0-4f89-41d3-9a0c-0305e82c3301"
  | S O => "9b2e4c1a-7d6f-4e58-8a3b-5c1d2e3f4a5b"
  | _ => "c56a4180-65aa-42ec-a945-5fd21dec0538"
  end.

Definition other_uuid (n : nat) : string :=
  match n with
  | O => "16fd2706-8baf-433b-82eb-8c7fada847da"
  | _ => "886313e1-3b8a-5372-9b90-0c9aee199e5d"
  end.

Definition sample_random (n : nat) : float := 0.75%float.

(** A world in which nothing has happened yet. *)
Definition fresh_world (e : ProcessEnv.t) (r : Request.t) (uuids : nat -> string) : World :=
  mkWorld e r (Response.mk 200 None []) uuids 0 sample_random 0
    "2024-05-01T12:00:00.000Z" (1000%Z, 0%Z) [] [].

Definition development : ProcessEnv.t :=
  ProcessEnv.mk (Some "development") None (Some "mongodb://db/shop") None.

Definition production : ProcessEnv.t :=
  ProcessEnv.mk (Some "production") None (Some "mongodb://db/shop") None.

Definition sampled_production : ProcessEnv.t :=
  ProcessEnv.mk (Some "production") (Some "0.5") (Some "mongodb://db/shop") None.

Definition get_orders : Request.t :=
  Request.mk "GET" "/api/orders" (VStr "10.0.0.7")
    [("user-agent", VStr "curl/8.5.0")] [] VUndefined.

Definition get_orders_traced : Request.t :=
  Request.mk "GET" "/api/orders" (VStr "10.0.0.7")
    [("user-agent", VStr "curl/8.5.0"); ("correlation-id", VStr "req-42")] [] VUndefined.

Definition get_health : Request.t :=
  Request.mk "GET" "/health/live" (VStr "10.0.0.7")
    [("user-agent", VStr "kube-probe/1.29")] [] VUndefined.

Definition post_login : Request.t :=
  Request.mk "POST" "/api/login" (VStr "10.0.0.7")
    [("user-agent", VStr "curl/8.5.0")] []
    (VObj [("email", VStr "a@b.com"); ("password", VStr "hunter2")]).

(** What jsonwebtoken throws for an expired token. *)
Definition expired_token_error : ErrorValue :=
  mkError true Unclassified
    [("name", VStr "TokenExpiredError"); ("message", VStr "jwt expired");
     ("stack", VStr "TokenExpiredError: jwt expired")].

Definition duplicate_email_message : string :=
  "E11000 duplicate key error collection: shop.users index: email_1".

(** What the MongoDB driver throws for a unique-index violation. *)
Definition duplicate_email_error : ErrorValue :=
  mkError true Unclassified
    [("name", VStr "MongoServerError");
     ("message", VStr duplicate_email_message);
     ("code", VNum 11000);
     ("keyPattern", VObj [("email", VNum 1)]);
     ("keyValue", VObj [("email", VStr "a@b.com")]);
     ("stack", VStr "MongoServerError: E11000 duplicate key error")].

(** The same violation as a server older than 4.2 reports it: no keyValue. *)
Definition duplicate_without_keyValue : ErrorValue :=
  mkError true Unclassified
    [("name", VStr "MongoServerError");
     ("message", VStr duplicate_email_message);
     ("code", VNum 11000)].

(** A plain object passed to [next]: not an instance of [Error]. *)
Definition thrown_object : ErrorValue :=
  mkError false Unclassified [("status", VNum 404); ("message", VStr "Not found")].

(** A rate limiter's error: an [Error] carrying the code the formatter
    tests for. *)
Definition rate_limit_error : ErrorValue :=
  mkError true Unclassified
    [("name", VStr "Error"); ("message", VStr "limit of 100 requests reached");
     ("code", VStr "RATE_LIMIT_EXCEEDED")].

(** [new Error("boom")]. *)
Definition plain_error : ErrorValue :=
  mkError true Unclassified
    [("name", VStr "Error"); ("message", VStr "boom"); ("stack", VStr "Error: boom")].

(** What jsonwebtoken throws for a token it cannot verify. *)
Definition invalid_token_error : ErrorValue :=
  mkError true Unclassified
    [("name", VStr "JsonWebTokenError"); ("message", VStr "invalid signature");
     ("stack", VStr "JsonWebTokenError: invalid signature")].

(** A token error that reached the formatter as a plain object (after a
    JSON round trip, say): the name is there, the prototype is not. *)
Definition expired_token_object : ErrorValue :=
  mkError false Unclassified
    [("name", VStr "TokenExpiredError"); ("message", VStr "jwt expired")].

(** What mongoose throws when "abc" is used where an ObjectId is expected. *)
Definition cast_error : ErrorValue :=
  mkError true CastError
    [("name", VStr "CastError"); ("path", VStr "_id"); ("value", VStr "abc");
     ("message", VStr "Cast to ObjectId failed for value abc at path _id")].

(** What mongoose throws when two fields of a document fail validation. *)
Definition validation_error : ErrorValue :=
  mkError true
    (ValidationError
       [("email", [("path", VStr "email"); ("message", VStr "Email is required")]);
        ("price", [("path", VStr "price"); ("message", VStr "Price must be positive")])])
    [("name", VStr "ValidationError");
     ("message", VStr "Product validation failed")].

(** [new AppError("Product not found", 404)]. *)
Definition app_error : ErrorValue :=
  mkError true (AppError (mkAppError 404 true))
    [("name", VStr "Error"); ("message", VStr "Product not found");
     ("statusCode", VNum 404); ("isOperational", VBool true)].

(** What mongoose throws when an array is used where an ObjectId is
    expected: the value it could not cast is the array. *)
Definition cast_error_of_array : ErrorValue :=
  mkError true CastError
    [("name", VStr "CastError"); ("path", VStr "_id");
     ("value", VObj [("0", VStr "a"); ("1", VStr "b")]);
     ("message", VStr "Cast to ObjectId failed for value [ 'a', 'b' ] at path _id")].

(** A login whose token field is an array. *)
Definition post_token_array : Request.t :=
  Request.mk "POST" "/api/login" (VStr "10.0.0.7")
    [("user-agent", VStr "curl/8.5.0")] []
    (VObj [("email", VStr "a@b.com");
           ("token", VObj [("0", VStr "a"); ("1", VStr "b")])]).

(** A generator and a random source of another run. *)
Definition low_random (n : nat) : float := 0.25%float.

(** A request that brings its own correlation id. *)
Definition get_orders_with_id : Request.t :=
  Request.mk "GET" "/api/orders" (VStr "10.0.0.7")
    [("user-agent", VStr "curl/8.5.0"); ("x-correlation-id", VStr "trace-7")] [] VUndefined.

(** A search with a token in the query string. *)
Definition get_search : Request.t :=
  Request.mk "GET" "/api/search?q=lamp&token=abc" (VStr "10.0.0.7")
    [("user-agent", VStr "curl/8.5.0")]
    [("q", VStr "lamp"); ("token", VStr "abc")] VUndefined.

(** [p] is one of [SENSITIVE_PARAMS]. *)
Definition sensitive (p : string) : bool := existsb (String.eqb p) SENSITIVE_PARAMS.

(** [Object.keys(o)] on an object. *)
Definition keys (o : obj) : list string := map fst o.

(** The key a field error of a validation error is stored under. *)
Definition field_path (err : obj) : string := ToString (get err "path").

(** The branches of the formatter, opened together. *)
Ltac open_rules :=
  unfold classify, earlier_rules, duplicate_rule, app_rule, rate_limit_rule,
    jwt_expired_rule, jwt_invalid_rule, cast_rule, validation_rule.

(** The calls the branches make, opened one after the other in a hypothesis
    that says they all returned. *)
Ltac open_calls H :=
  repeat match type of H with
         | context [and_then ?x _] =>
             lazymatch x with
             | context [and_then] => fail
             | _ => destruct x; cbn [and_then] in H; [|discriminate H]
             end
         end.

(** A world that differs from [w] in its random sources only: another run
    on the same request. *)
Definition rerun (uuids : nat -> string) (randoms : nat -> float) (w : World) : World :=
  mkWorld (env w) (req w) (res w) uuids (uuid_drawn w) randoms (random_drawn w)
          (now w) (hrtime w) (sink w) (next_calls w).

(** * Properties *)

Section Properties.

Variable sanitize : value -> Attempt string.
Variable parseFloat : string -> float.

(** ** The error formatter, step by step *)

(** One equation for a whole call of [errorHandler]: the identifiers it
    draws, and then either the exception of the classification or one log
    record and one response. *)
Lemma errorHandler_run (a : IErrorHandler.t) (w : World) :
  errorHandler sanitize a w =
  let e := IErrorHandler.error a in
  let w2 := with_uuid_drawn (S (uuid_drawn (after_correlation w))) (after_correlation w) in
  match classify sanitize e (initial_locals a (formatter_code_uuid w)) with
  | Thrown x => Throw x w2
  | Returned l =>
      Ok tt
        (with_res
           (Response.mk (Locals.statusCode l)
              (Some (ErrorBody (error_response w e l)))
              (Response.on_finish (res w)))
           (with_sink
              (sink w ++ [(Level.error,
                           ErrorRecord (error_log w (formatter_correlationId w) e l))])%list
              w2))
  end.
Proof.
  unfold errorHandler, formatter_code_uuid, formatter_correlationId, after_correlation.
  unfold bind, read, or_else, uuidv4, ret, attempt.
  destruct (truthy (Request.header (req w) "x-correlation-id")) eqn:Hx; cbn;
    destruct (classify sanitize (IErrorHandler.error a) _) as [l|x]; reflexivity.
Qed.

Lemma sanitizes_returned (v : value) :
  sanitizes sanitize v = true -> sanitize v = Returned (sanitized sanitize v).
Proof.
  unfold sanitizes, sanitized, returns. destruct (sanitize v); [reflexivity | discriminate].
Qed.

Lemma returned_sanitizes (v : value) (s : string) :
  sanitize v = Returned s -> sanitizes sanitize v = true /\ sanitized sanitize v = s.
Proof. unfold sanitizes, sanitized, returns. intros ->. split; reflexivity. Qed.

(** The loop over the field errors, when [sanitize] returns on each. *)
Lemma field_errors_return (errs : list obj) :
  forallb (fun err => sanitizes sanitize (get err "message")) errs = true ->
  forall acc,
    fold_left (add_field_error sanitize) errs (Returned acc)
    = Returned
        (fold_left
           (fun acc err => put acc (field_path err) (VStr (sanitized sanitize (get err "message"))))
           errs acc).
Proof.
  induction errs as [|err errs IH]; intros H acc; [reflexivity|].
  cbn in H. apply andb_prop in H. destruct H as [H1 H2].
  cbn [fold_left]. unfold add_field_error at 2. cbn [and_then].
  rewrite (sanitizes_returned _ H1). cbn [and_then]. exact (IH H2 _).
Qed.


(** Each branch returns when the calls it makes return. *)
Lemma validation_rule_returns (e : ErrorValue) (l : Locals.t) :
  mongoose_texts_sanitize sanitize e = true ->
  exists l', validation_rule sanitize e l = Returned l'.
Proof.
  unfold mongoose_texts_sanitize, validation_rule. intros H.
  destruct (cls e) as [| errors | | own]; eauto.
  rewrite (field_errors_return _ H). cbn. eauto.
Qed.

Lemma cast_rule_returns (e : ErrorValue) (l : Locals.t) :
  mongoose_texts_sanitize sanitize e = true ->
  exists l', cast_rule sanitize e l = Returned l'.
Proof.
  unfold mongoose_texts_sanitize, cast_rule. intros H.
  destruct (cls e) as [| errors | | own]; eauto.
  rewrite (sanitizes_returned _ H). cbn. eauto.
Qed.

Lemma duplicate_rule_returns (e : ErrorValue) (l : Locals.t) :
  keyValue_sanitizes sanitize e = true ->
  exists l', duplicate_rule sanitize e l = Returned l'.
Proof.
  unfold keyValue_sanitizes, duplicate_rule. intros H.
  destruct (is_duplicate_key e); cbn in H; [|eauto].
  destruct (own_keys (get (fields e) "keyValue")) as [ks|]; [|discriminate].
  rewrite (sanitizes_returned _ H). cbn. eauto.
Qed.

Lemma app_rule_returns (e : ErrorValue) (l : Locals.t) :
  message_sanitizes sanitize e = true ->
  exists l', app_rule sanitize e l = Returned l'.
Proof.
  unfold message_sanitizes, app_rule. intros H.
  destruct (cls e) as [| errors | | own]; eauto.
  rewrite orb_true_r in H. cbn in H.
  rewrite (sanitizes_returned _ H). cbn. eauto.
Qed.

Lemma fallback_rule_returns (e : ErrorValue) (l : Locals.t) :
  message_sanitizes sanitize e = true ->
  exists l', fallback_rule sanitize e l = Returned l'.
Proof.
  unfold message_sanitizes, fallback_rule, fallback_applies. intros H.
  destruct (instanceof_Error e); cbn in *; [|eauto].
  destruct (negb (truthy _)); [|eauto].
  rewrite (sanitizes_returned _ H). cbn. eauto.
Qed.

(** The classification runs to its end when every call it can make
    returns. *)
Lemma classify_responds (e : ErrorValue) (l : Locals.t) :
  responds sanitize e = true -> exists l', classify sanitize e l = Returned l'.
Proof.
  unfold responds. intros H.
  apply andb_prop in H. destruct H as [H Hm].
  apply andb_prop in H. destruct H as [Ht Hk].
  unfold classify, earlier_rules.
  destruct (validation_rule_returns e l Ht) as [l1 ->]. cbn [and_then].
  destruct (cast_rule_returns e l1 Ht) as [l2 ->]. cbn [and_then].
  destruct (duplicate_rule_returns e
              (rate_limit_rule e (jwt_expired_rule e (jwt_invalid_rule e l2))) Hk)
    as [l3 ->]. cbn [and_then].
  destruct (app_rule_returns e l3 Hm) as [l4 ->]. cbn [and_then].
  exact (fallback_rule_returns e l4 Hm).
Qed.

(** The fallback touches nothing but the message. *)
Lemma fallback_rule_frame (e : ErrorValue) (l l' : Locals.t) :
  fallback_rule sanitize e l = Returned l' ->
  Locals.statusCode l' = Locals.statusCode l
  /\ Locals.errorDetails l' = Locals.errorDetails l
  /\ Locals.errorCode l' = Locals.errorCode l.
Proof.
  unfold fallback_rule. destruct (fallback_applies e l).
  - destruct (sanitize _); cbn; intros H; [|discriminate].
    injection H as <-. repeat split.
  - intros H. injection H as <-. repeat split.
Qed.

(** What the fallback leaves as the message. *)
Lemma fallback_rule_message (e : ErrorValue) (l l' : Locals.t) :
  fallback_rule sanitize e l = Returned l' ->
  if fallback_applies e l
  then sanitize (get (fields e) "message") = Returned (Locals.message l')
  else Locals.message l' = Locals.message l.
Proof.
  unfold fallback_rule. destruct (fallback_applies e l).
  - destruct (sanitize _); cbn; intros H; [|discriminate].
    injection H as <-. reflexivity.
  - intros H. injection H as <-. reflexivity.
Qed.

(** When no branch is taken the locals are the initial ones. *)
Lemma earlier_rules_unmatched (e : ErrorValue) (l : Locals.t) :
  matches_a_rule e = false -> earlier_rules sanitize e l = Returned l.
Proof.
  unfold matches_a_rule. intros H.
  repeat (apply orb_false_elim in H; destruct H as [H ?]).
  unfold earlier_rules, duplicate_rule, rate_limit_rule, jwt_expired_rule,
    jwt_invalid_rule, cast_rule, validation_rule, app_rule.
  destruct (cls e); try discriminate.
  repeat match goal with Hc : _ = false |- _ => rewrite Hc; clear Hc end.
  reflexivity.
Qed.

(** The code a taken branch leaves is one of the constants, or the one of
    an application error. *)
Lemma earlier_rules_code (e : ErrorValue) (l l' : Locals.t) :
  matches_a_rule e = true ->
  earlier_rules sanitize e l = Returned l' ->
  In (Locals.errorCode l') category_codes
  \/ exists own,
       cls e = AppError own
       /\ Locals.errorCode l' = "ERR-APP-" ++ show_number (app_statusCode own).
Proof.
  clear parseFloat.
  unfold matches_a_rule, earlier_rules, duplicate_rule, rate_limit_rule,
    jwt_expired_rule, jwt_invalid_rule, cast_rule, validation_rule, app_rule,
    category_codes.
  intros Hm H.
  destruct (cls e) as [| errors | | own] eqn:Hc;
    destruct (is_duplicate_key e);
    try destruct (own_keys (get (fields e) "keyValue"));
    destruct (is_string (get (fields e) "code") "RATE_LIMIT_EXCEEDED");
    destruct (is_string (get (fields e) "name") "TokenExpiredError");
    destruct (is_string (get (fields e) "name") "JsonWebTokenError");
    cbn [and_then orb] in Hm, H; try discriminate;
    open_calls H; try discriminate H;
    injection H as <-; cbn;
    try (right; eexists; split; reflexivity);
    left; tauto.
Qed.

(** The details the branches before the fallback leave never hold a
    message, unless the error is a validation error. *)
Lemma details_without_message (e : ErrorValue) (l0 l : Locals.t) :
  (forall errors, cls e <> ValidationError errors) ->
  Locals.errorDetails l0 = [] ->
  earlier_rules sanitize e l0 = Returned l ->
  get (Locals.errorDetails l) "message" = VUndefined.
Proof.
  intros Hv H0. open_rules. intros H.
  destruct (cls e) as [| errors | | own] eqn:Hc;
    [| exfalso; exact (Hv errors eq_refl) | |];
    destruct (is_duplicate_key e);
    try destruct (own_keys (get (fields e) "keyValue"));
    destruct (is_string (get (fields e) "code") "RATE_LIMIT_EXCEEDED");
    destruct (is_string (get (fields e) "name") "TokenExpiredError");
    destruct (is_string (get (fields e) "name") "JsonWebTokenError");
    cbn [and_then] in H; try discriminate;
    open_calls H; try discriminate H;
    injection H as <-; cbn; rewrite ?H0; reflexivity.
Qed.

(** ** The claims about the error formatter *)

(** C1 (the code departs from the claim). The error jsonwebtoken throws for
    an expired token, passed through [globalErrorHandler]: the status is 401
    and the code ERR-JWT-EXPIRED-401, but the message sent is the library's
    own text, which the fallback branch writes over the fixed one, because
    the value is an instance of Error and the details hold no message. *)
Theorem expired_token_message_is_overwritten (w : World) :
  sanitize (VStr "jwt expired") = Returned "jwt expired" ->
  exists w' r,
    globalErrorHandler sanitize expired_token_error w = Ok tt w'
    /\ Response.statusCode (res w') = 401%Z
    /\ sent_error w' = Some r
    /\ ErrorResponse.errorCode r = "ERR-JWT-EXPIRED-401"
    /\ ErrorResponse.message r = "jwt expired"
    /\ ErrorResponse.message r <> ERROR_MESSAGES.tokenExpired.
Proof.
  intros Hs. unfold globalErrorHandler. rewrite errorHandler_run. cbn.
  rewrite Hs. cbn.
  do 2 eexists. split; [reflexivity|]. cbn.
  repeat split; try reflexivity. discriminate.
Qed.

(** C2 (the code departs from the claim). The driver's duplicate-key error
    with keyValue {email: "a@b.com"}: status 409, code ERR-DUPLICATE-409 and
    details {field: "email", value: "a@b.com"} are as claimed, but the
    message sent is the driver's text and not "Duplicate entry found.": the
    fallback branch tests [errorDetails.message], which this branch never
    sets. *)
Theorem duplicate_key_message_is_overwritten (w : World) :
  sanitize (VStr "a@b.com") = Returned "a@b.com" ->
  sanitize (VStr duplicate_email_message) = Returned duplicate_email_message ->
  exists w' r,
    globalErrorHandler sanitize duplicate_email_error w = Ok tt w'
    /\ Response.statusCode (res w') = 409%Z
    /\ sent_error w' = Some r
    /\ ErrorResponse.errorCode r = "ERR-DUPLICATE-409"
    /\ ErrorResponse.details r = Some [("field", VStr "email"); ("value", VStr "a@b.com")]
    /\ ErrorResponse.message r = duplicate_email_message
    /\ ErrorResponse.message r <> ERROR_MESSAGES.duplicateEntry.
Proof.
  intros Hv Hm. unfold globalErrorHandler. rewrite errorHandler_run.
  open_rules. cbn. rewrite Hv. cbn. unfold fallback_rule. cbn. rewrite Hm. cbn.
  do 2 eexists. split; [reflexivity|]. cbn.
  repeat split; try reflexivity. discriminate.
Qed.

(** C3 (the code departs from the claim). An Error that carries the
    rate-limit code: the rate-limit branch sets details, {retryAfter: 60},
    and the fixed message, so by the claim the message of that branch is
    kept. It is not: the fallback branch tests [errorDetails.message], not
    whether details were set, so it runs and the message sent is the
    error's own text, next to the details of the branch. *)
Theorem rate_limit_message_is_overwritten (w : World) :
  sanitize (VStr "limit of 100 requests reached") = Returned "limit of 100 requests reached" ->
  let l0 := initial_locals (IErrorHandler.mk None None rate_limit_error)
              (formatter_code_uuid w) in
  earlier_rules sanitize rate_limit_error l0
  = Returned (Locals.mk 429 ERROR_MESSAGES.rateLimitExceeded
                [("retryAfter", VNum 60)] "ERR-RATE-LIMIT-429")
  /\ exists w' r,
       globalErrorHandler sanitize rate_limit_error w = Ok tt w'
       /\ Response.statusCode (res w') = 429%Z
       /\ sent_error w' = Some r
       /\ ErrorResponse.errorCode r = "ERR-RATE-LIMIT-429"
       /\ ErrorResponse.details r = Some [("retryAfter", VNum 60)]
       /\ ErrorResponse.message r = "limit of 100 requests reached"
       /\ ErrorResponse.message r <> ERROR_MESSAGES.rateLimitExceeded.
Proof.
  intros Hs l0. split; [reflexivity|].
  unfold globalErrorHandler. rewrite errorHandler_run.
  open_rules. cbn. unfold fallback_rule. cbn. rewrite Hs. cbn.
  do 2 eexists. split; [reflexivity|]. cbn.
  repeat split; try reflexivity. discriminate.
Qed.

(** C9 (amended). Whenever every call of the classification returns, the
    formatter sends one body with success false, the resolved code and
    message; the code is one of the constants of the branches (or ERR-APP-
    and the status of an application error) when a branch matched, and
    ERR-, the status, and the first eight characters of a fresh identifier
    otherwise; the details key is there exactly when the details are not
    empty, and the stack key exactly when NODE_ENV is not production. *)
Theorem error_envelope (a : IErrorHandler.t) (w : World) :
  responds sanitize (IErrorHandler.error a) = true ->
  exists w' l r,
    errorHandler sanitize a w = Ok tt w'
    /\ classify sanitize (IErrorHandler.error a) (initial_locals a (formatter_code_uuid w))
       = Returned l
    /\ Response.statusCode (res w') = Locals.statusCode l
    /\ sent_error w' = Some r
    /\ ErrorResponse.success r = false
    /\ ErrorResponse.errorCode r = Locals.errorCode l
    /\ ErrorResponse.message r = Locals.message l
    /\ (if matches_a_rule (IErrorHandler.error a)
        then In (ErrorResponse.errorCode r) category_codes
             \/ exists own,
                  cls (IErrorHandler.error a) = AppError own
                  /\ ErrorResponse.errorCode r
                     = "ERR-APP-" ++ show_number (app_statusCode own)
        else ErrorResponse.errorCode r
             = "ERR-" ++ show_number (default 500%Z (IErrorHandler.statusCode a))
               ++ "-" ++ substring 0 8 (formatter_code_uuid w))
    /\ (ErrorResponse.details r = None <-> Locals.errorDetails l = [])
    /\ (forall d, ErrorResponse.details r = Some d -> d = Locals.errorDetails l)
    /\ (ErrorResponse.stack r = None <-> ProcessEnv.NODE_ENV (env w) = Some "production")
    /\ (forall s, ErrorResponse.stack r = Some s ->
                  s = get (fields (IErrorHandler.error a)) "stack").
Proof.
  intros Hr.
  destruct (classify_responds (IErrorHandler.error a)
              (initial_locals a (formatter_code_uuid w)) Hr) as [l Hl].
  rewrite errorHandler_run. cbn zeta. rewrite Hl.
  eexists _, l, _. split; [reflexivity|]. split; [reflexivity|].
  unfold sent_error, error_response. cbn.
  repeat (split; [reflexivity|]).
  split; [|split; [|split; [|split]]].
  - unfold classify in Hl.
    destruct (earlier_rules sanitize (IErrorHandler.error a)
                (initial_locals a (formatter_code_uuid w))) as [l1|x] eqn:He;
      [|discriminate].
    cbn [and_then] in Hl.
    destruct (fallback_rule_frame _ _ _ Hl) as (_ & _ & Hc).
    rewrite Hc.
    destruct (matches_a_rule (IErrorHandler.error a)) eqn:Hm.
    + exact (earlier_rules_code _ _ _ Hm He).
    + rewrite (earlier_rules_unmatched _ _ Hm) in He. injection He as <-. reflexivity.
  - destruct (Locals.errorDetails l); cbn; split; congruence.
  - intros d. destruct (Locals.errorDetails l); cbn; congruence.
  - unfold not_production. destruct (ProcessEnv.NODE_ENV (env w)) as [s|]; cbn.
    + destruct (String.eqb_spec s "production"); cbn; split; congruence.
    + split; congruence.
  - intros s. cbn. destruct (not_production (env w)); congruence.
Qed.


(** An error named TokenExpiredError that no later branch matches gets
    status 401 and the code of the branch, whatever NODE_ENV is; the fixed
    message stays when the value is not an instance of Error. *)
Lemma expired_token_status_and_code (a : IErrorHandler.t) (u : string) :
  let e := IErrorHandler.error a in
  is_string (get (fields e) "name") "TokenExpiredError" = true ->
  is_string (get (fields e) "code") "RATE_LIMIT_EXCEEDED" = false ->
  (forall own, cls e <> AppError own) ->
  responds sanitize e = true ->
  exists l,
    classify sanitize e (initial_locals a u) = Returned l
    /\ Locals.statusCode l = 401%Z
    /\ Locals.errorCode l = "ERR-JWT-EXPIRED-401"
    /\ (instanceof_Error e = false -> Locals.message l = ERROR_MESSAGES.tokenExpired).
Proof.
  intros e Hn Hc Happ Hr.
  destruct (classify_responds e (initial_locals a u) Hr) as [l Hl].
  exists l. split; [exact Hl|].
  assert (Hd : is_duplicate_key e = false).
  { unfold is_duplicate_key. destruct (get (fields e) "name") as [| | | |s|]; try reflexivity.
    cbn in Hn |- *. apply String.eqb_eq in Hn. subst s. reflexivity. }
  unfold classify in Hl.
  destruct (earlier_rules sanitize e (initial_locals a u)) as [l1|x] eqn:H1; [|discriminate].
  cbn [and_then] in Hl.
  destruct (fallback_rule_frame _ _ _ Hl) as (Hs & _ & Hcode).
  pose proof (fallback_rule_message _ _ _ Hl) as Hmsg.
  rewrite Hs, Hcode.
  assert (Hl1 : Locals.statusCode l1 = 401%Z /\ Locals.errorCode l1 = "ERR-JWT-EXPIRED-401"
                /\ Locals.message l1 = ERROR_MESSAGES.tokenExpired).
  { revert H1. unfold earlier_rules, duplicate_rule, rate_limit_rule, jwt_expired_rule,
      app_rule. rewrite Hd, Hc, Hn. intros H1.
    destruct (cls e) as [| | |own] eqn:Hcls; [| | |exfalso; exact (Happ own eq_refl)];
      unfold validation_rule, cast_rule in H1; rewrite Hcls in H1;
      cbn [and_then] in H1; open_calls H1; injection H1 as <-; repeat split. }
  destruct Hl1 as (H401 & Hcd & Hm).
  repeat split; try assumption.
  intros He. unfold fallback_applies in Hmsg. rewrite He in Hmsg. cbn in Hmsg. congruence.
Qed.

(** ** The logging middleware, step by step *)

Lemma get_put_same (o : obj) (k : string) (v : value) : get (put o k v) k = v.
Proof.
  induction o as [|[k' v'] o IH]; cbn.
  - now rewrite String.eqb_refl.
  - destruct (k' =? k) eqn:E; cbn.
    + now rewrite String.eqb_refl.
    + now rewrite E.
Qed.

Lemma sampled_out_run (w : World) :
  sampled_out parseFloat w
  = Ok (sampling_skips parseFloat w) (after_sampling parseFloat w).
Proof.
  unfold sampled_out, sampling_skips, after_sampling, bind, read, Math_random, ret.
  destruct (PrimFloat.ltb (LOG_SAMPLING_RATE parseFloat (env w)) 1) eqn:E; reflexivity.
Qed.

(** The catch block returns: it logs one failure record under the header it
    finds, or under a fresh identifier, and passes the exception on. *)
Lemma logRequest_catch_run (err : exn) (w : World) :
  logRequest_catch err w
  = Ok tt
      (with_next_calls (next_calls w ++ [Some err])%list
         (with_sink
            (sink w
             ++ [(Level.error,
                  FailureRecord
                    (MiddlewareFailure.mk (formatter_correlationId w)
                       "Error in logRequest middleware"
                       (exn_message err)
                       (if not_production (env w) then VStr (exn_stack err) else VUndefined)
                       (now w)))])%list
            (after_correlation w))).
Proof.
  unfold logRequest_catch, formatter_correlationId, after_correlation.
  unfold bind, read, or_else, uuidv4, ret, logger, next, modify.
  destruct (truthy (Request.header (req w) "x-correlation-id")); reflexivity.
Qed.

(** One equation for a whole call of [logRequest]: it returns, through the
    try block when the body branch runs to its end, and through the catch
    block when [sanitize] throws there. *)
Lemma logRequest_run (w : World) :
  logRequest sanitize parseFloat w =
  Ok tt
    (if skip_listed (Request.originalUrl (req w))
     then with_next_calls (next_calls w ++ [None])%list w
     else if sampling_skips parseFloat w
          then with_next_calls (next_calls w ++ [None])%list (after_sampling parseFloat w)
          else match sanitized_body sanitize (env w) (req w) with
               | Returned sanitizedBody => logged_world parseFloat w sanitizedBody
               | Thrown err => failure_world parseFloat w err
               end).
Proof.
  unfold logRequest, try_catch, logRequest_body.
  unfold bind at 1. unfold read at 1.
  destruct (skip_listed (Request.originalUrl (req w))) eqn:Hskip; [reflexivity|].
  unfold bind at 1. rewrite sampled_out_run.
  destruct (sampling_skips parseFloat w) eqn:Hs.
  - unfold next, modify, after_sampling.
    destruct (PrimFloat.ltb (LOG_SAMPLING_RATE parseFloat (env w)) 1); reflexivity.
  - unfold failure_world, logged_world, tagged_world, registered_listener.
    unfold choose_correlationId, bind, read, or_else, or_value, uuidv4, ret,
      set_header, res_on_finish, next, modify, attempt, throw.
    unfold after_sampling.
    destruct (PrimFloat.ltb (LOG_SAMPLING_RATE parseFloat (env w)) 1);
      cbn [req env with_random_drawn with_req with_uuid_drawn];
      unfold tagged_request, chosen_correlationId;
      destruct (truthy (Request.header (req w) "x-correlation-id")) eqn:Hx;
      cbn [req env with_random_drawn with_req with_uuid_drawn];
      rewrite ?Hx;
      try (destruct (truthy (Request.header (req w) "correlation-id")) eqn:Hc;
           cbn [req env with_random_drawn with_req with_uuid_drawn]; rewrite ?Hc);
      match goal with
      | |- context [sanitized_body sanitize ?e ?r] =>
          change (sanitized_body sanitize e r)
            with (sanitized_body sanitize (env w) (req w))
      end;
      destruct (sanitized_body sanitize (env w) (req w)) as [b|x];
      try reflexivity;
      rewrite !logRequest_catch_run; reflexivity.
Qed.

Lemma run_finish_listener_run (l : FinishListener) (w : World) :
  run_finish_listener l w = Ok tt (with_sink (sink w ++ [finish_record w l])%list w).
Proof. reflexivity. Qed.

Lemma run_listeners_run (ls : list FinishListener) :
  forall w,
    run_listeners ls w
    = Ok tt (with_sink (sink w ++ map (finish_record w) ls)%list w).
Proof.
  induction ls as [|l ls IH]; intros w.
  - cbn. rewrite app_nil_r. destruct w; reflexivity.
  - cbn [run_listeners]. unfold bind. rewrite run_finish_listener_run, IH.
    cbn. rewrite <- app_assoc. reflexivity.
Qed.

Lemma emit_finish_run (w : World) :
  emit_finish w
  = Ok tt (with_sink (sink w ++ map (finish_record w) (Response.on_finish (res w)))%list w).
Proof. unfold emit_finish, bind, read. apply run_listeners_run. Qed.


(** *** Masking *)

Lemma get_put_other (o : obj) (k k' : string) (v : value) :
  k <> k' -> get (put o k v) k' = get o k'.
Proof.
  intros Hk. induction o as [|[k0 v0] o IH]; cbn.
  - destruct (String.eqb_spec k k'); [contradiction | reflexivity].
  - destruct (String.eqb_spec k0 k) as [->|Hn]; cbn.
    + destruct (String.eqb_spec k k'); [contradiction | reflexivity].
    + destruct (k0 =? k'); [reflexivity | exact IH].
Qed.

Lemma replace_truthy_other (f : value -> value) (o : obj) (p q : string) :
  p <> q -> get (replace_truthy f o p) q = get o q.
Proof.
  intros Hn. unfold replace_truthy. destruct (truthy (get o p)); [|reflexivity].
  now apply get_put_other.
Qed.

Lemma replace_other (f : value -> value) (ps : list string) :
  forall (o : obj) (p : string),
    ~ In p ps -> get (fold_left (replace_truthy f) ps o) p = get o p.
Proof.
  induction ps as [|p' ps IH]; intros o p Hp; [reflexivity|].
  cbn [fold_left]. rewrite IH by (intros Hin; apply Hp; now right).
  apply replace_truthy_other. intros ->. apply Hp. now left.
Qed.

Lemma replace_listed (f : value -> value) (ps : list string) :
  NoDup ps ->
  forall (o : obj) (p : string),
    In p ps ->
    get (fold_left (replace_truthy f) ps o) p
    = if truthy (get o p) then f (get o p) else get o p.
Proof.
  induction 1 as [|p' ps Hnotin Hnd IH]; intros o p Hin; [contradiction|].
  cbn [fold_left]. destruct Hin as [->|Hin].
  - rewrite replace_other by assumption. unfold replace_truthy.
    destruct (truthy (get o p)); [apply get_put_same | reflexivity].
  - assert (Hne : p' <> p) by (intros ->; contradiction).
    rewrite IH by assumption.
    now rewrite (replace_truthy_other f o p' p Hne).
Qed.

Lemma SENSITIVE_PARAMS_NoDup : NoDup SENSITIVE_PARAMS.
Proof.
  unfold SENSITIVE_PARAMS.
  repeat (constructor; [cbn; intuition discriminate|]). constructor.
Qed.

(** A sensitive query parameter with a truthy value is logged as the mask. *)
Lemma mask_query_masks (q : obj) (p : string) :
  In p SENSITIVE_PARAMS -> truthy (get q p) = true ->
  get (mask_query q) p = VStr "****".
Proof.
  intros Hin Ht. unfold mask_query.
  change (get (fold_left (replace_truthy (fun _ => VStr "****")) SENSITIVE_PARAMS q) p = VStr "****").
  rewrite (replace_listed _ _ SENSITIVE_PARAMS_NoDup q p Hin).
  now rewrite Ht.
Qed.

(** One with a falsy value (an empty string) is logged as it came in. *)
Lemma mask_query_keeps_falsy (q : obj) (p : string) :
  In p SENSITIVE_PARAMS -> truthy (get q p) = false ->
  get (mask_query q) p = get q p.
Proof.
  intros Hin Ht. unfold mask_query.
  change (get (fold_left (replace_truthy (fun _ => VStr "****")) SENSITIVE_PARAMS q) p = get q p).
  rewrite (replace_listed _ _ SENSITIVE_PARAMS_NoDup q p Hin).
  now rewrite Ht.
Qed.

(** *** The body branch *)

Lemma values_sanitize_ext (ps : list string) (o o' : obj) :
  (forall p, In p ps -> get o' p = get o p) ->
  values_sanitize sanitize ps o' = values_sanitize sanitize ps o.
Proof.
  intros H. unfold values_sanitize. induction ps as [|p ps IH]; [reflexivity|].
  cbn [forallb]. rewrite (H p) by now left.
  rewrite IH; [reflexivity|]. intros q Hq. apply H. now right.
Qed.

Lemma sanitize_params_thrown (ps : list string) (x : exn) :
  fold_left (sanitize_param sanitize) ps (Thrown x) = Thrown x.
Proof. induction ps as [|p ps IH]; [reflexivity | exact IH]. Qed.

(** The loop runs to its end when [sanitize] returns on every truthy value
    under a listed name, and leaves what [replace_truthy] describes. *)
Lemma sanitize_params_return (ps : list string) :
  NoDup ps ->
  forall o,
    values_sanitize sanitize ps o = true ->
    fold_left (sanitize_param sanitize) ps (Returned o)
    = Returned (fold_left (replace_truthy (fun v => VStr (sanitized sanitize v))) ps o).
Proof.
  induction 1 as [|p ps Hnotin Hnd IH]; intros o H; [reflexivity|].
  unfold values_sanitize in H. cbn [forallb] in H.
  apply andb_prop in H. destruct H as [Hp Hps].
  cbn [fold_left].
  assert (Hstep : sanitize_param sanitize (Returned o) p
                  = Returned (replace_truthy (fun v => VStr (sanitized sanitize v)) o p)).
  { unfold sanitize_param, replace_truthy. cbn [and_then].
    destruct (truthy (get o p)); [|reflexivity]. cbn in Hp.
    rewrite (sanitizes_returned _ Hp). reflexivity. }
  rewrite Hstep. apply IH.
  rewrite (values_sanitize_ext ps o); [exact Hps|].
  intros q Hq. apply replace_truthy_other. intros ->. contradiction.
Qed.

(** Otherwise it ends with the exception [sanitize] throws on one of those
    values. *)
Lemma sanitize_params_throw (ps : list string) :
  NoDup ps ->
  forall o,
    values_sanitize sanitize ps o = false ->
    exists p x,
      In p ps /\ truthy (get o p) = true /\ sanitize (get o p) = Thrown x
      /\ fold_left (sanitize_param sanitize) ps (Returned o) = Thrown x.
Proof.
  induction 1 as [|p ps Hnotin Hnd IH]; intros o H; [discriminate|].
  unfold values_sanitize in H. cbn [forallb] in H. cbn [fold_left].
  destruct (truthy (get o p)) eqn:Ht; cbn [negb orb] in H.
  - unfold sanitizes, returns in H.
    destruct (sanitize (get o p)) as [s|x] eqn:Hs; cbn [andb] in H.
    + assert (Hstep : sanitize_param sanitize (Returned o) p
                      = Returned (put o p (VStr s))).
      { unfold sanitize_param. cbn [and_then]. rewrite Ht, Hs. reflexivity. }
      rewrite Hstep.
      assert (Hext : forall q, In q ps -> get (put o p (VStr s)) q = get o q).
      { intros q Hq. apply get_put_other. intros ->. contradiction. }
      destruct (IH (put o p (VStr s))) as (q & x & Hq & Htq & Hsq & Hf).
      { rewrite (values_sanitize_ext ps o); assumption. }
      exists q, x. rewrite (Hext q Hq) in Htq, Hsq. auto using in_cons.
    + exists p, x. repeat split; try assumption; [now left|].
      unfold sanitize_param at 2. cbn [and_then]. rewrite Ht, Hs. cbn [and_then].
      apply sanitize_params_thrown.
  - assert (Hstep : sanitize_param sanitize (Returned o) p = Returned o).
    { unfold sanitize_param. cbn [and_then]. now rewrite Ht. }
    rewrite Hstep.
    destruct (IH o H) as (q & x & Hq & Htq & Hsq & Hf).
    exists q, x. auto using in_cons.
Qed.

(** The body branch runs to its end exactly when [body_sanitizes] says so. *)
Lemma sanitized_body_returns (e : ProcessEnv.t) (r : Request.t) :
  body_sanitizes sanitize e r = true ->
  sanitized_body sanitize e r = Returned (kept_body sanitize e r).
Proof.
  unfold body_sanitizes, sanitized_body, kept_body.
  destruct (not_production e && existsb (String.eqb (Request.method r)) ["POST"; "PUT"]);
    cbn [negb orb]; [|reflexivity].
  destruct (Request.body r) as [| | | | |o]; try reflexivity.
  intros H. unfold sanitize_body.
  rewrite (sanitize_params_return _ SENSITIVE_PARAMS_NoDup o H). reflexivity.
Qed.

Lemma sanitized_body_throws (e : ProcessEnv.t) (r : Request.t) :
  body_sanitizes sanitize e r = false ->
  exists o p x,
    not_production e = true
    /\ existsb (String.eqb (Request.method r)) ["POST"; "PUT"] = true
    /\ Request.body r = VObj o
    /\ In p SENSITIVE_PARAMS
    /\ truthy (get o p) = true
    /\ sanitize (get o p) = Thrown x
    /\ sanitized_body sanitize e r = Thrown x.
Proof.
  unfold body_sanitizes, sanitized_body.
  destruct (not_production e); cbn [andb negb orb]; [|discriminate].
  destruct (existsb (String.eqb (Request.method r)) ["POST"; "PUT"]);
    cbn [andb negb orb]; [|discriminate].
  destruct (Request.body r) as [| | | | |o]; try discriminate.
  intros H.
  destruct (sanitize_params_throw _ SENSITIVE_PARAMS_NoDup o H) as (p & x & Hin & Ht & Hs & Hf).
  exists o, p, x. unfold sanitize_body. rewrite Hf. repeat split; assumption.
Qed.

(** In production the body branch is not entered. *)
Lemma production_body_sanitizes (e : ProcessEnv.t) (r : Request.t) :
  not_production e = false ->
  body_sanitizes sanitize e r = true /\ kept_body sanitize e r = None.
Proof. unfold body_sanitizes, kept_body. intros ->. split; reflexivity. Qed.

(** What [logRequest] leaves behind when it logs the request. *)
Lemma logged_world_fields (w : World) (b : option obj) :
  let w' := logged_world parseFloat w b in
  env w' = env w
  /\ req w' = tagged_request w
  /\ sink w' = sink w
  /\ Response.on_finish (res w')
     = (Response.on_finish (res w) ++ [registered_listener w b])%list
  /\ Response.statusCode (res w') = Response.statusCode (res w)
  /\ uuid_source w' = uuid_source w
  /\ random_drawn w' = random_drawn (after_sampling parseFloat w)
  /\ next_calls w' = (next_calls w ++ [None])%list
  /\ uuid_drawn w'
     = (if truthy (or_value (Request.header (req w) "x-correlation-id")
                            (Request.header (req w) "correlation-id"))
        then uuid_drawn w else S (uuid_drawn w)).
Proof.
  unfold logged_world, tagged_world, after_sampling.
  destruct (PrimFloat.ltb (LOG_SAMPLING_RATE parseFloat (env w)) 1);
    destruct (truthy _); cbn; repeat split.
Qed.

Lemma tagged_world_fields (w : World) :
  let w' := tagged_world parseFloat w in
  env w' = env w
  /\ req w' = tagged_request w
  /\ sink w' = sink w
  /\ res w' = res w
  /\ next_calls w' = next_calls w
  /\ now w' = now w
  /\ uuid_source w' = uuid_source w.
Proof.
  unfold tagged_world, after_sampling.
  destruct (PrimFloat.ltb (LOG_SAMPLING_RATE parseFloat (env w)) 1);
    destruct (truthy _); cbn; repeat split.
Qed.

Lemma tagged_header (w : World) :
  Request.header (tagged_request w) "x-correlation-id" = chosen_correlationId w.
Proof. unfold tagged_request, Request.header. cbn. apply get_put_same. Qed.

(** What the catch block leaves behind when the body branch threw. *)
Lemma failure_world_fields (w : World) (x : exn) :
  let w' := failure_world parseFloat w x in
  env w' = env w
  /\ req w' = tagged_request w
  /\ next_calls w' = (next_calls w ++ [Some x])%list
  /\ Response.on_finish (res w') = Response.on_finish (res w)
  /\ exists f,
       sink w' = (sink w ++ [(Level.error, FailureRecord f)])%list
       /\ MiddlewareFailure.message f = "Error in logRequest middleware"
       /\ MiddlewareFailure.error f = exn_message x
       /\ (truthy (chosen_correlationId w) = true ->
           MiddlewareFailure.correlationId f = chosen_correlationId w).
Proof.
  destruct (tagged_world_fields w) as (He & Hq & Hsink & Hres & Hn & _).
  cbn zeta in *.
  unfold failure_world. rewrite logRequest_catch_run. cbn [world_of].
  unfold formatter_correlationId, after_correlation.
  rewrite Hq, tagged_header.
  destruct (truthy (chosen_correlationId w));
    cbn [env req res sink next_calls with_next_calls with_sink with_uuid_drawn];
    rewrite ?He, ?Hq, ?Hsink, ?Hres, ?Hn;
    repeat (split; [reflexivity|]);
    eexists; repeat (split; [reflexivity|]); [reflexivity | discriminate].
Qed.

(** ** The claims about the logging middleware *)

(** C5. A request whose URL starts with "/health", "/ping" or "/static" is
    passed on at once: the call of [logRequest] does nothing but call
    [next()], so it logs nothing, draws nothing, registers no listener, and
    the finish event of a response without listeners logs nothing either. *)
Theorem skip_listed_request_is_not_logged (w : World) :
  (exists route,
      In route ["/health"; "/ping"; "/static"]
      /\ prefix route (Request.originalUrl (req w)) = true) ->
  logRequest sanitize parseFloat w
  = Ok tt (with_next_calls (next_calls w ++ [None])%list w)
  /\ sink (world_of (logRequest sanitize parseFloat w)) = sink w
  /\ Response.on_finish (res (world_of (logRequest sanitize parseFloat w)))
     = Response.on_finish (res w)
  /\ (Response.on_finish (res w) = [] ->
      sink (world_of (emit_finish (world_of (logRequest sanitize parseFloat w)))) = sink w).
Proof.
  intros H.
  assert (Hskip : skip_listed (Request.originalUrl (req w)) = true).
  { unfold skip_listed, SKIP_LOGGING_ROUTES. apply existsb_exists. exact H. }
  rewrite logRequest_run, Hskip. cbn [world_of].
  repeat split. intros Hl. rewrite emit_finish_run. cbn. rewrite Hl. cbn.
  apply app_nil_r.
Qed.

(** C6. A request that is logged (it is not skipped, and the body branch
    runs to its end): the correlation id is the x-correlation-id header
    when that is not empty, else the correlation-id header when that is not
    empty, else a fresh identifier; it is written back to the
    x-correlation-id header; and the record logged when the response
    finishes, whatever happened to the request and the response in between,
    carries the same id. *)
Theorem logged_request_correlation_id (w : World) :
  skip_listed (Request.originalUrl (req w)) = false ->
  sampling_skips parseFloat w = false ->
  body_sanitizes sanitize (env w) (req w) = true ->
  let x := Request.header (req w) "x-correlation-id" in
  let c := Request.header (req w) "correlation-id" in
  exists w' id,
    logRequest sanitize parseFloat w = Ok tt w'
    /\ (truthy x = true -> id = x /\ uuid_drawn w' = uuid_drawn w)
    /\ (truthy x = false -> truthy c = true -> id = c /\ uuid_drawn w' = uuid_drawn w)
    /\ (truthy x = false -> truthy c = false ->
        id = VStr (uuid_source w (uuid_drawn w)) /\ uuid_drawn w' = S (uuid_drawn w))
    /\ Request.header (req w') "x-correlation-id" = id
    /\ forall w'',
         Response.on_finish (res w'') = Response.on_finish (res w') ->
         exists earlier level d headers,
           emit_finish w''
           = Ok tt (with_sink (sink w'' ++ earlier ++ [(level, RequestLog d headers)])%list w'')
           /\ length earlier = length (Response.on_finish (res w))
           /\ LogData.correlationId d = id.
Proof.
  intros Hskip Hs Hb x c.
  exists (logged_world parseFloat w (kept_body sanitize (env w) (req w))),
         (chosen_correlationId w).
  rewrite logRequest_run, Hskip, Hs, (sanitized_body_returns _ _ Hb).
  split; [reflexivity|].
  destruct (logged_world_fields w (kept_body sanitize (env w) (req w)))
    as (_ & Hq & _ & Hon & _ & _ & _ & _ & Hu).
  cbn zeta in Hq, Hon, Hu. rewrite Hu, Hq, tagged_header.
  unfold chosen_correlationId, or_value. fold x c.
  split; [|split; [|split; [|split]]].
  - intros Hx. rewrite !Hx. auto.
  - intros Hx Hc. rewrite !Hx, !Hc. auto.
  - intros Hx Hc. rewrite !Hx, !Hc. auto.
  - reflexivity.
  - intros w'' Hl. rewrite emit_finish_run, Hl, Hon. rewrite map_app. cbn [map].
    eexists _, _, _, _. split; [reflexivity|]. split; [apply length_map | reflexivity].
Qed.


(** C10. A request the middleware skips, by its path or by sampling, keeps
    its headers: nothing is written back, no identifier is drawn, nothing is
    logged or registered. If it carries no x-correlation-id, the error
    formatter, whenever it runs afterwards on that request, takes as
    correlation id the identifier it draws itself, then and there, and logs
    under it whenever every call of its classification returns. The id the
    middleware would have chosen belongs to another run, the one [v] in
    which it does log the same request: there it is the identifier the
    generator of that run returns, it is written to the header, and the
    formatter reuses it without drawing one. Nothing relates the two
    identifiers: each is what the generator of its own run returns. *)
Theorem skipped_request_keeps_its_headers (w : World) :
  skip_listed (Request.originalUrl (req w)) = true
  \/ sampling_skips parseFloat w = true ->
  exists w',
    logRequest sanitize parseFloat w = Ok tt w'
    /\ req w' = req w
    /\ uuid_drawn w' = uuid_drawn w
    /\ sink w' = sink w
    /\ Response.on_finish (res w') = Response.on_finish (res w)
    /\ (truthy (Request.header (req w) "x-correlation-id") = false ->
        forall (a : IErrorHandler.t) (w2 : World),
          req w2 = req w' ->
          formatter_correlationId w2 = VStr (uuid_source w2 (uuid_drawn w2))
          /\ uuid_drawn (world_of (errorHandler sanitize a w2)) = S (S (uuid_drawn w2))
          /\ (responds sanitize (IErrorHandler.error a) = true ->
              exists w3 entry,
                errorHandler sanitize a w2 = Ok tt w3
                /\ sink w3 = (sink w2 ++ [(Level.error, ErrorRecord entry)])%list
                /\ ErrorLog.correlationId entry = VStr (uuid_source w2 (uuid_drawn w2))))
    /\ (truthy (Request.header (req w) "x-correlation-id") = false ->
        truthy (Request.header (req w) "correlation-id") = false ->
        forall v : World,
          req v = req w ->
          skip_listed (Request.originalUrl (req v)) = false ->
          sampling_skips parseFloat v = false ->
          body_sanitizes sanitize (env v) (req v) = true ->
          uuid_source v (uuid_drawn v) <> "" ->
          exists v',
            logRequest sanitize parseFloat v = Ok tt v'
            /\ Request.header (req v') "x-correlation-id" = VStr (uuid_source v (uuid_drawn v))
            /\ forall (a : IErrorHandler.t) (v2 : World),
                 req v2 = req v' ->
                 formatter_correlationId v2 = VStr (uuid_source v (uuid_drawn v))
                 /\ uuid_drawn (world_of (errorHandler sanitize a v2)) = S (uuid_drawn v2)).
Proof.
  intros H. rewrite logRequest_run.
  assert (Hw : exists w',
             (if skip_listed (Request.originalUrl (req w))
              then with_next_calls (next_calls w ++ [None])%list w
              else if sampling_skips parseFloat w
                   then with_next_calls (next_calls w ++ [None])%list
                          (after_sampling parseFloat w)
                   else match sanitized_body sanitize (env w) (req w) with
                        | Returned b => logged_world parseFloat w b
                        | Thrown err => failure_world parseFloat w err
                        end) = w'
             /\ req w' = req w /\ uuid_drawn w' = uuid_drawn w /\ sink w' = sink w
             /\ Response.on_finish (res w') = Response.on_finish (res w)).
  { destruct (skip_listed (Request.originalUrl (req w))).
    - eexists. split; [reflexivity|]. cbn. auto.
    - destruct H as [H|H]; [discriminate|]. rewrite H.
      eexists. split; [reflexivity|]. unfold after_sampling.
      destruct (PrimFloat.ltb (LOG_SAMPLING_RATE parseFloat (env w)) 1); cbn; auto. }
  destruct Hw as (w' & -> & Hreq & Hu & Hsink & Hl).
  exists w'. repeat (split; [assumption || reflexivity|]).
  split.
  - intros Hx a w2 Hw2.
    assert (Hx2 : truthy (Request.header (req w2) "x-correlation-id") = false)
      by (rewrite Hw2, Hreq; exact Hx).
    rewrite errorHandler_run. cbn zeta.
    unfold formatter_code_uuid, formatter_correlationId, after_correlation. rewrite Hx2.
    split; [reflexivity|]. split.
    + destruct (classify sanitize _ _); reflexivity.
    + intros Hr.
      match goal with
      | |- context [classify sanitize ?e ?l0] =>
          destruct (classify_responds e l0 Hr) as [l Hcl]; rewrite Hcl
      end.
      eexists _, _. split; [reflexivity|]. cbn. auto.
  - intros Hx Hc v Hv Hskip Hs Hb Hne.
    exists (logged_world parseFloat v (kept_body sanitize (env v) (req v))).
    rewrite logRequest_run, Hskip, Hs, (sanitized_body_returns _ _ Hb).
    split; [reflexivity|].
    destruct (logged_world_fields v (kept_body sanitize (env v) (req v)))
      as (_ & Hq & _).
    cbn zeta in Hq. rewrite Hq, tagged_header.
    assert (Hid : chosen_correlationId v = VStr (uuid_source v (uuid_drawn v))).
    { unfold chosen_correlationId. rewrite Hv, Hx, Hc. reflexivity. }
    rewrite Hid. split; [reflexivity|].
    intros a v2 Hv2.
    assert (Hx2 : Request.header (req v2) "x-correlation-id"
                  = VStr (uuid_source v (uuid_drawn v)))
      by (rewrite Hv2, tagged_header; exact Hid).
    assert (Ht : truthy (Request.header (req v2) "x-correlation-id") = true).
    { rewrite Hx2. cbn. destruct (String.eqb_spec (uuid_source v (uuid_drawn v)) "");
        [contradiction | reflexivity]. }
    rewrite errorHandler_run. cbn zeta.
    unfold formatter_correlationId, after_correlation. rewrite Ht.
    split; [exact Hx2|].
    destruct (classify sanitize _ _); reflexivity.
Qed.

(** C4 (the code departs from the claim). Outside production, for a POST
    or PUT whose body holds a sensitive parameter with a text value that the
    sanitizer leaves as it is (text without markup), and whose body branch
    runs to its end, the record logged when the response finishes carries
    that value as it came in: the body branch stores what the sanitizer
    returns, not a mask. *)
Theorem body_secret_is_logged_verbatim
  (w : World) (o : obj) (param secret : string) :
  skip_listed (Request.originalUrl (req w)) = false ->
  sampling_skips parseFloat w = false ->
  Response.on_finish (res w) = [] ->
  not_production (env w) = true ->
  Request.method (req w) = "POST" \/ Request.method (req w) = "PUT" ->
  Request.body (req w) = VObj o ->
  body_sanitizes sanitize (env w) (req w) = true ->
  In param SENSITIVE_PARAMS ->
  member (Request.body (req w)) param = VStr secret ->
  secret <> "" ->
  sanitize (VStr secret) = Returned secret ->
  exists w' w'' level d headers b,
    logRequest sanitize parseFloat w = Ok tt w'
    /\ emit_finish w' = Ok tt w''
    /\ sink w'' = (sink w ++ [(level, RequestLog d headers)])%list
    /\ LogData.body d = Some b
    /\ get b param = member (Request.body (req w)) param.
Proof.
  intros Hskip Hs Hl Hnp Hm Hb Hsb Hin Hv Hne Hsan.
  rewrite logRequest_run, Hskip, Hs, (sanitized_body_returns _ _ Hsb).
  destruct (logged_world_fields w (kept_body sanitize (env w) (req w)))
    as (_ & _ & Hsink & Hon & _).
  cbn zeta in Hsink, Hon.
  eexists _, _, _, _, _, _. split; [reflexivity|].
  rewrite emit_finish_run. split; [reflexivity|].
  cbn [sink with_sink]. rewrite Hsink, Hon, Hl. cbn [app map].
  split; [reflexivity|].
  assert (Hpp : existsb (String.eqb (Request.method (req w))) ["POST"; "PUT"] = true).
  { destruct Hm as [-> | ->]; reflexivity. }
  unfold registered_listener, initial_logData, LogData.finished.
  cbn [LogData.body captured_logData].
  unfold kept_body. rewrite Hnp, Hb, Hpp. cbn [andb]. split; [reflexivity|].
  rewrite Hb in Hv. cbn [member] in Hv |- *.
  rewrite (replace_listed _ _ SENSITIVE_PARAMS_NoDup o param Hin), Hv.
  destruct (returned_sanitizes _ _ Hsan) as [_ ->].
  cbn. destruct (String.eqb_spec secret ""); [contradiction | reflexivity].
Qed.

(** ** The claim about the success formatter *)

(** C8. Called with status 200, message "ok" and payload {x: 1}, the success
    formatter sets the status to 200 and sends {success: true, message: "ok",
    data: {x: 1}}; the world is otherwise as it was: nothing is logged and
    no identifier is drawn. *)
Theorem successHandler_ok_envelope (w : World) :
  let payload := VObj [("x", VNum 1)] in
  successHandler (ISuccessHandler.mk (Some 200%Z) (Some "ok") (Some payload)) w
  = Ok tt
      (with_res
         (Response.mk 200
            (Some (SuccessBody (SuccessResponse.mk true "ok" payload)))
            (Response.on_finish (res w)))
         w)
  /\ sink (world_of
             (successHandler (ISuccessHandler.mk (Some 200%Z) (Some "ok") (Some payload)) w))
     = sink w
  /\ uuid_drawn (world_of
             (successHandler (ISuccessHandler.mk (Some 200%Z) (Some "ok") (Some payload)) w))
     = uuid_drawn w.
Proof. repeat split. Qed.

End Properties.

(** ** The claim about start-up *)



(** ** The claims at concrete inputs *)

Lemma expired_token_message_is_overwritten_witness :
  plain_text (VStr "jwt expired") = Returned "jwt expired"
  /\ exists w' r,
       globalErrorHandler plain_text expired_token_error
         (fresh_world production get_orders sample_uuid) = Ok tt w'
       /\ Response.statusCode (res w') = 401%Z
       /\ sent_error w' = Some r
       /\ ErrorResponse.errorCode r = "ERR-JWT-EXPIRED-401"
       /\ ErrorResponse.message r = "jwt expired"
       /\ ErrorResponse.message r <> ERROR_MESSAGES.tokenExpired.
Proof.
  split; [reflexivity|].
  apply (expired_token_message_is_overwritten plain_text
           (fresh_world production get_orders sample_uuid)).
  reflexivity.
Defined.

Lemma duplicate_key_message_is_overwritten_witness :
  plain_text (VStr "a@b.com") = Returned "a@b.com"
  /\ plain_text (VStr duplicate_email_message) = Returned duplicate_email_message
  /\ exists w' r,
       globalErrorHandler plain_text duplicate_email_error
         (fresh_world production get_orders sample_uuid) = Ok tt w'
       /\ Response.statusCode (res w') = 409%Z
       /\ sent_error w' = Some r
       /\ ErrorResponse.errorCode r = "ERR-DUPLICATE-409"
       /\ ErrorResponse.details r = Some [("field", VStr "email"); ("value", VStr "a@b.com")]
       /\ ErrorResponse.message r = duplicate_email_message
       /\ ErrorResponse.message r <> ERROR_MESSAGES.duplicateEntry.
Proof.
  split; [reflexivity|]. split; [reflexivity|].
  apply (duplicate_key_message_is_overwritten plain_text
           (fresh_world production get_orders sample_uuid)); reflexivity.
Defined.

Lemma rate_limit_message_is_overwritten_witness :
  plain_text (VStr "limit of 100 requests reached") = Returned "limit of 100 requests reached"
  /\ exists w' r,
       globalErrorHandler plain_text rate_limit_error
         (fresh_world production get_orders sample_uuid) = Ok tt w'
       /\ Response.statusCode (res w') = 429%Z
       /\ sent_error w' = Some r
       /\ ErrorResponse.errorCode r = "ERR-RATE-LIMIT-429"
       /\ ErrorResponse.details r = Some [("retryAfter", VNum 60)]
       /\ ErrorResponse.message r = "limit of 100 requests reached"
       /\ ErrorResponse.message r <> ERROR_MESSAGES.rateLimitExceeded.
Proof.
  split; [reflexivity|].
  exact (proj2 (rate_limit_message_is_overwritten plain_text
                  (fresh_world production get_orders sample_uuid) eq_refl)).
Defined.

Lemma body_secret_is_logged_verbatim_witness :
  let w := fresh_world development post_login sample_uuid in
  plain_text (VStr "hunter2") = Returned "hunter2"
  /\ body_sanitizes plain_text (env w) (req w) = true
  /\ exists w' w'' level d headers b,
       logRequest plain_text parse_rate w = Ok tt w'
       /\ emit_finish w' = Ok tt w''
       /\ sink w'' = [(level, RequestLog d headers)]
       /\ LogData.body d = Some b
       /\ get b "password" = VStr "hunter2".
Proof.
  split; [reflexivity|]. split; [reflexivity|].
  apply (body_secret_is_logged_verbatim plain_text parse_rate
           (fresh_world development post_login sample_uuid)
           [("email", VStr "a@b.com"); ("password", VStr "hunter2")]
           "password" "hunter2");
    try reflexivity.
  - left; reflexivity.
  - left; reflexivity.
  - discriminate.
Defined.

Lemma skip_listed_request_is_not_logged_witness :
  let w := fresh_world development get_health sample_uuid in
  prefix "/health" (Request.originalUrl (req w)) = true
  /\ logRequest plain_text parse_rate w
     = Ok tt (with_next_calls [None] w)
  /\ sink (world_of (emit_finish (world_of (logRequest plain_text parse_rate w)))) = [].
Proof.
  set (w := fresh_world development get_health sample_uuid).
  assert (H : exists route,
             In route ["/health"; "/ping"; "/static"]
             /\ prefix route (Request.originalUrl (req w)) = true).
  { exists "/health". split; [left; reflexivity | reflexivity]. }
  destruct (skip_listed_request_is_not_logged plain_text parse_rate w H)
    as (Hrun & _ & _ & Hfin).
  split; [reflexivity|]. split; [exact Hrun | exact (Hfin eq_refl)].
Defined.

Lemma logged_request_correlation_id_witness :
  let w := fresh_world development get_orders_traced sample_uuid in
  skip_listed (Request.originalUrl (req w)) = false
  /\ sampling_skips parse_rate w = false
  /\ body_sanitizes plain_text (env w) (req w) = true
  /\ exists w',
       logRequest plain_text parse_rate w = Ok tt w'
       /\ Request.header (req w') "x-correlation-id" = VStr "req-42"
       /\ uuid_drawn w' = 0
       /\ exists level d headers,
            emit_finish w' = Ok tt (with_sink [(level, RequestLog d headers)] w')
            /\ LogData.correlationId d = VStr "req-42".
Proof.
  set (w := fresh_world development get_orders_traced sample_uuid).
  split; [reflexivity|]. split; [reflexivity|]. split; [reflexivity|].
  destruct (logged_request_correlation_id plain_text parse_rate w eq_refl eq_refl eq_refl)
    as (w' & id & Hrun & _ & Hc & _ & Hh & Hfin).
  destruct (Hc eq_refl eq_refl) as [-> Hu].
  exists w'. split; [exact Hrun|]. split; [exact Hh|]. split; [exact Hu|].
  destruct (Hfin w' eq_refl) as (earlier & level & d & headers & He & Hlen & Hd).
  destruct earlier as [|x earlier]; [|discriminate Hlen].
  exists level, d, headers. split; [|exact Hd].
  rewrite He.
  assert (Hs : sink w' = []).
  { rewrite logRequest_run in Hrun. injection Hrun as <-. reflexivity. }
  rewrite Hs. reflexivity.
Defined.

(** C9, as stated, fails. The code of an error no branch matches is built
    from a fresh identifier, so the same error gets another code when the
    generator returns other identifiers; and the formatter sends nothing at
    all when its classification throws: for a duplicate-key error without
    keyValue in [Object.keys], for a cast error whose value is an array in
    [sanitize]. *)
Lemma default_code_varies_and_formatter_can_throw :
  option_map ErrorResponse.errorCode
    (sent_error (world_of (globalErrorHandler plain_text plain_error
                             (fresh_world production get_orders sample_uuid))))
  = Some "ERR-500-9b2e4c1a"
  /\ option_map ErrorResponse.errorCode
       (sent_error (world_of (globalErrorHandler plain_text plain_error
                                (fresh_world production get_orders other_uuid))))
     = Some "ERR-500-886313e1"
  /\ globalErrorHandler plain_text duplicate_without_keyValue
       (fresh_world production get_orders sample_uuid)
     = Throw TypeError_not_an_object
         (with_uuid_drawn 2 (fresh_world production get_orders sample_uuid))
  /\ responds plain_text duplicate_without_keyValue = false
  /\ (exists x,
        globalErrorHandler plain_text cast_error_of_array
          (fresh_world production get_orders sample_uuid)
        = Throw x (with_uuid_drawn 2 (fresh_world production get_orders sample_uuid)))
  /\ responds plain_text cast_error_of_array = false.
Proof.
  repeat split. eexists. reflexivity.
Qed.

Lemma error_envelope_witness :
  let a := IErrorHandler.mk None None duplicate_email_error in
  let w := fresh_world development get_orders sample_uuid in
  responds plain_text (IErrorHandler.error a) = true
  /\ exists w' r,
       errorHandler plain_text a w = Ok tt w'
       /\ sent_error w' = Some r
       /\ ErrorResponse.success r = false
       /\ ErrorResponse.details r <> None
       /\ ErrorResponse.stack r = Some (VStr "MongoServerError: E11000 duplicate key error").
Proof.
  split; [reflexivity|].
  destruct (error_envelope plain_text
              (IErrorHandler.mk None None duplicate_email_error)
              (fresh_world development get_orders sample_uuid) eq_refl)
    as (w' & l & r & Hrun & Hcl & _ & Hsent & Hsucc & _ & _ & _ & Hd & _ & Hst & Hstack).
  exists w', r. split; [exact Hrun|]. split; [exact Hsent|]. split; [exact Hsucc|].
  split.
  - intros Hn. apply Hd in Hn. cbn in Hcl. injection Hcl as <-. discriminate Hn.
  - destruct (ErrorResponse.stack r) as [s|] eqn:Hs.
    + f_equal. exact (Hstack s eq_refl).
    + destruct Hst as [Hst _]. discriminate (Hst eq_refl).
Defined.

(** A request that sampling skips, and then fails: the formatter logs under
    the identifier its own call of the generator returns. In the run that
    draws a lower random number and has another generator, the middleware
    logs the same request and writes that generator's identifier to the
    header. *)
Lemma skipped_request_keeps_its_headers_witness :
  let w := fresh_world sampled_production get_orders sample_uuid in
  let v := rerun other_uuid low_random w in
  sampling_skips parse_rate w = true
  /\ sampling_skips parse_rate v = false
  /\ exists w',
       logRequest plain_text parse_rate w = Ok tt w'
       /\ Request.headers (req w') = [("user-agent", VStr "curl/8.5.0")]
       /\ uuid_drawn w' = 0
       /\ (exists w3 entry,
             globalErrorHandler plain_text plain_error w' = Ok tt w3
             /\ sink w3 = (sink w' ++ [(Level.error, ErrorRecord entry)])%list
             /\ ErrorLog.correlationId entry = VStr "3f2504e0-4f89-41d3-9a0c-0305e82c3301")
       /\ exists v',
            logRequest plain_text parse_rate v = Ok tt v'
            /\ Request.header (req v') "x-correlation-id"
               = VStr "16fd2706-8baf-433b-82eb-8c7fada847da".
Proof.
  set (w := fresh_world sampled_production get_orders sample_uuid).
  split; [reflexivity|]. split; [reflexivity|].
  destruct (skipped_request_keeps_its_headers plain_text parse_rate w (or_intror eq_refl))
    as (w' & Hrun & Hreq & Hu & _ & _ & Hfmt & Hother).
  exists w'. split; [exact Hrun|]. split; [rewrite Hreq; reflexivity|].
  split; [exact Hu|]. split.
  - destruct (Hfmt eq_refl (IErrorHandler.mk None None plain_error) w' eq_refl)
      as (_ & _ & Hlog).
    destruct (Hlog eq_refl) as (w3 & entry & Hh & Hs & Hc).
    exists w3, entry. split; [exact Hh|]. split; [exact Hs|].
    rewrite Hc, Hu.
    assert (Hsrc : uuid_source w' = sample_uuid).
    { rewrite logRequest_run in Hrun. injection Hrun as <-. reflexivity. }
    rewrite Hsrc. reflexivity.
  - destruct (Hother eq_refl eq_refl (rerun other_uuid low_random w)
                eq_refl eq_refl eq_refl eq_refl ltac:(discriminate))
      as (v' & Hv & Hh & _).
    exists v'. split; [exact Hv | exact Hh].
Defined.

(** * Further properties of the code *)

Section Coverage.

Variable sanitize : value -> Attempt string.
Variable parseFloat : string -> float.

(** ** The error formatter *)

(** Whatever the formatter does, it leaves the request, the listeners of the
    response, the environment and the calls to [next] as they were: it does
    not write its correlation id back to the request and it ends the chain. *)
Theorem formatter_frame (a : IErrorHandler.t) (w : World) :
  let w' := world_of (errorHandler sanitize a w) in
  req w' = req w
  /\ env w' = env w
  /\ next_calls w' = next_calls w
  /\ Response.on_finish (res w') = Response.on_finish (res w).
Proof.
  cbn zeta. rewrite errorHandler_run. cbn zeta. unfold after_correlation.
  destruct (classify sanitize _ _); destruct (truthy _); cbn; auto.
Qed.

(** When the formatter throws, in [Object.keys] or in [sanitize], it has
    drawn its identifiers and done nothing else: nothing is logged and no
    response is sent; and one of the calls of its classification is then
    one that does not return. *)
Theorem formatter_throw_leaves_no_trace (a : IErrorHandler.t) (w w' : World) (x : exn) :
  errorHandler sanitize a w = Throw x w' ->
  classify sanitize (IErrorHandler.error a) (initial_locals a (formatter_code_uuid w))
  = Thrown x
  /\ responds sanitize (IErrorHandler.error a) = false
  /\ sink w' = sink w
  /\ res w' = res w
  /\ uuid_drawn w'
     = (if truthy (Request.header (req w) "x-correlation-id")
        then S (uuid_drawn w) else S (S (uuid_drawn w))).
Proof.
  rewrite errorHandler_run. cbn zeta. intros H.
  destruct (classify sanitize _ _) as [l|y] eqn:Hc; [discriminate|].
  injection H as -> <-. split; [reflexivity|]. split.
  - destruct (responds sanitize (IErrorHandler.error a)) eqn:Hr; [|reflexivity].
    destruct (classify_responds sanitize _ (initial_locals a (formatter_code_uuid w)) Hr)
      as [l Hl].
    rewrite Hl in Hc. discriminate.
  - unfold after_correlation. destruct (truthy _); repeat split.
Qed.

(** What the formatter logs is what it sends: one record at level error
    with the message, status, code and details of the response, under the
    method and URL of the request; in production neither carries the
    stack. *)
Theorem error_is_logged_as_sent (a : IErrorHandler.t) (w : World) :
  responds sanitize (IErrorHandler.error a) = true ->
  exists w' entry r,
    errorHandler sanitize a w = Ok tt w'
    /\ sink w' = (sink w ++ [(Level.error, ErrorRecord entry)])%list
    /\ sent_error w' = Some r
    /\ ErrorLog.statusCode entry = Response.statusCode (res w')
    /\ ErrorLog.message entry = ErrorResponse.message r
    /\ ErrorLog.errorCode entry = ErrorResponse.errorCode r
    /\ (ErrorResponse.details r = None -> ErrorLog.details entry = [])
    /\ (forall d, ErrorResponse.details r = Some d -> ErrorLog.details entry = d)
    /\ ErrorLog.method entry = Request.method (req w)
    /\ ErrorLog.url entry = Request.originalUrl (req w)
    /\ ErrorLog.timestamp entry = now w
    /\ (ProcessEnv.NODE_ENV (env w) = Some "production" ->
        ErrorLog.stack entry = VUndefined /\ ErrorResponse.stack r = None).
Proof.
  intros Hr.
  destruct (classify_responds sanitize (IErrorHandler.error a)
              (initial_locals a (formatter_code_uuid w)) Hr) as [l Hl].
  rewrite errorHandler_run. cbn zeta. rewrite Hl.
  eexists _, _, _. split; [reflexivity|]. unfold sent_error, error_response, error_log. cbn.
  repeat (split; [reflexivity|]).
  split; [|split; [|repeat (split; [reflexivity|])]].
  - destruct (Locals.errorDetails l); [reflexivity | discriminate].
  - intros d. destruct (Locals.errorDetails l); cbn; congruence.
  - intros Hp. unfold not_production. rewrite Hp. cbn. split; reflexivity.
Qed.

(** A request that carries an x-correlation-id is logged by the formatter
    under that id, and the formatter draws one identifier only, the one for
    the default code. *)
Theorem formatter_reuses_inbound_id (a : IErrorHandler.t) (w : World) :
  truthy (Request.header (req w) "x-correlation-id") = true ->
  responds sanitize (IErrorHandler.error a) = true ->
  exists w' entry,
    errorHandler sanitize a w = Ok tt w'
    /\ sink w' = (sink w ++ [(Level.error, ErrorRecord entry)])%list
    /\ ErrorLog.correlationId entry = Request.header (req w) "x-correlation-id"
    /\ uuid_drawn w' = S (uuid_drawn w).
Proof.
  intros Hx Hr.
  destruct (classify_responds sanitize (IErrorHandler.error a)
              (initial_locals a (formatter_code_uuid w)) Hr) as [l Hl].
  rewrite errorHandler_run. cbn zeta. rewrite Hl.
  unfold formatter_correlationId, after_correlation. rewrite Hx.
  eexists _, _. split; [reflexivity|]. cbn. auto.
Qed.

(** For every instance of Error that is not a validation error, the message
    sent is the sanitized text of the error itself, whichever branch
    matched and whatever message was passed in: the fallback always runs. *)
Theorem native_error_message_is_own_text (a : IErrorHandler.t) (w : World) :
  instanceof_Error (IErrorHandler.error a) = true ->
  (forall errors, cls (IErrorHandler.error a) <> ValidationError errors) ->
  responds sanitize (IErrorHandler.error a) = true ->
  exists w' r,
    errorHandler sanitize a w = Ok tt w'
    /\ sent_error w' = Some r
    /\ sanitize (get (fields (IErrorHandler.error a)) "message")
       = Returned (ErrorResponse.message r).
Proof.
  intros He Hv Hr.
  destruct (classify_responds sanitize (IErrorHandler.error a)
              (initial_locals a (formatter_code_uuid w)) Hr) as [l Hl].
  rewrite errorHandler_run. cbn zeta. rewrite Hl.
  eexists _, _. split; [reflexivity|]. split; [reflexivity|]. cbn.
  unfold classify in Hl.
  destruct (earlier_rules sanitize _ _) as [l1|x] eqn:H1; [|discriminate].
  cbn [and_then] in Hl.
  pose proof (fallback_rule_message sanitize _ _ _ Hl) as Hm.
  unfold fallback_applies in Hm.
  rewrite He,
    (details_without_message sanitize _ (initial_locals a (formatter_code_uuid w)) _
       Hv eq_refl H1) in Hm.
  exact Hm.
Qed.

(** An error that no branch matches: the status is the one passed in or
    500, the code is built from it and a fresh identifier, no details are
    sent, and the message is the one passed in (or "Internal Server Error")
    only when the value is not an instance of Error; for an instance of
    Error the message passed in is dropped for the error's own text, [m]
    when [sanitize] returns it. *)
Theorem unmatched_error_defaults (a : IErrorHandler.t) (w : World) (m : string) :
  matches_a_rule (IErrorHandler.error a) = false ->
  (if instanceof_Error (IErrorHandler.error a)
   then sanitize (get (fields (IErrorHandler.error a)) "message") = Returned m
   else m = default "Internal Server Error" (IErrorHandler.message a)) ->
  exists w' r,
    errorHandler sanitize a w = Ok tt w'
    /\ Response.statusCode (res w') = default 500%Z (IErrorHandler.statusCode a)
    /\ sent_error w' = Some r
    /\ ErrorResponse.errorCode r
       = "ERR-" ++ show_number (default 500%Z (IErrorHandler.statusCode a))
         ++ "-" ++ substring 0 8 (formatter_code_uuid w)
    /\ ErrorResponse.details r = None
    /\ ErrorResponse.message r = m.
Proof.
  intros Hm Hs. rewrite errorHandler_run. cbn zeta.
  unfold classify. rewrite (earlier_rules_unmatched sanitize _ _ Hm). cbn [and_then].
  unfold fallback_rule, fallback_applies. cbn [initial_locals Locals.errorDetails get truthy negb].
  destruct (instanceof_Error (IErrorHandler.error a)); cbn [andb].
  - rewrite Hs. cbn [and_then]. eexists _, _. split; [reflexivity|]. repeat split.
  - subst m. eexists _, _. split; [reflexivity|]. repeat split.
Qed.

(** *** The branches, one by one *)

Lemma is_string_other (v : value) (s s' : string) :
  is_string v s = true -> s <> s' -> is_string v s' = false.
Proof.
  destruct v; try discriminate. cbn. intros H Hn.
  apply String.eqb_eq in H. subst. now apply String.eqb_neq.
Qed.

(** What the classification leaves of the branches before the fallback. *)
Lemma classify_after (e : ErrorValue) (l0 l : Locals.t) :
  classify sanitize e l0 = Returned l ->
  exists l1,
    earlier_rules sanitize e l0 = Returned l1
    /\ Locals.statusCode l = Locals.statusCode l1
    /\ Locals.errorDetails l = Locals.errorDetails l1
    /\ Locals.errorCode l = Locals.errorCode l1
    /\ (if fallback_applies e l1
        then sanitize (get (fields e) "message") = Returned (Locals.message l)
        else Locals.message l = Locals.message l1).
Proof.
  unfold classify. intros H.
  destruct (earlier_rules sanitize e l0) as [l1|x]; [|discriminate].
  cbn [and_then] in H. exists l1. split; [reflexivity|].
  destruct (fallback_rule_frame sanitize _ _ _ H) as (Hs & Hd & Hc).
  repeat split; try assumption. exact (fallback_rule_message sanitize _ _ _ H).
Qed.

(** An error named JsonWebTokenError that no later branch matches gets
    status 401 and the code of the branch; the fixed message stays when the
    value is not an instance of Error. *)
Theorem invalid_token_status_and_code (a : IErrorHandler.t) (u : string) :
  let e := IErrorHandler.error a in
  is_string (get (fields e) "name") "JsonWebTokenError" = true ->
  is_string (get (fields e) "code") "RATE_LIMIT_EXCEEDED" = false ->
  (forall own, cls e <> AppError own) ->
  responds sanitize e = true ->
  exists l,
    classify sanitize e (initial_locals a u) = Returned l
    /\ Locals.statusCode l = 401%Z
    /\ Locals.errorCode l = "ERR-JWT-INVALID-401"
    /\ (instanceof_Error e = false -> Locals.message l = ERROR_MESSAGES.invalidToken).
Proof.
  intros e Hn Hc Happ Hr.
  destruct (classify_responds sanitize e (initial_locals a u) Hr) as [l Hl].
  exists l. split; [exact Hl|].
  destruct (classify_after _ _ _ Hl) as (l1 & H1 & -> & _ & -> & Hm).
  assert (Hx : is_string (get (fields e) "name") "TokenExpiredError" = false)
    by (apply (is_string_other _ _ _ Hn); discriminate).
  assert (Hd : is_duplicate_key e = false).
  { unfold is_duplicate_key.
    rewrite (is_string_other _ _ "MongoServerError" Hn) by discriminate. reflexivity. }
  assert (Hl1 : Locals.statusCode l1 = 401%Z /\ Locals.errorCode l1 = "ERR-JWT-INVALID-401"
                /\ Locals.message l1 = ERROR_MESSAGES.invalidToken).
  { revert H1. unfold earlier_rules, duplicate_rule, rate_limit_rule, jwt_expired_rule,
      jwt_invalid_rule, app_rule. rewrite Hd, Hc, Hx, Hn. intros H1.
    destruct (cls e) as [| | |own] eqn:Hcls; [| | |exfalso; exact (Happ own eq_refl)];
      unfold validation_rule, cast_rule in H1; rewrite Hcls in H1;
      cbn [and_then] in H1; open_calls H1; injection H1 as <-; repeat split. }
  destruct Hl1 as (H401 & Hcd & Hmsg).
  repeat split; try assumption.
  intros He. unfold fallback_applies in Hm. rewrite He in Hm. cbn in Hm. congruence.
Qed.

(** A mongoose cast error that no later branch matches: when [sanitize]
    returns on the value that could not be cast, it gets status 400, the
    code of the branch and no details; the message naming the field and the
    sanitized value is sent only when the value is not an instance of
    Error, and an instance of Error gets its own text. When [sanitize]
    throws on that value, the classification ends with that exception. *)
Theorem cast_error_status_and_code (a : IErrorHandler.t) (u : string) :
  let e := IErrorHandler.error a in
  cls e = CastError ->
  is_string (get (fields e) "name") "JsonWebTokenError" = false ->
  is_string (get (fields e) "name") "TokenExpiredError" = false ->
  is_string (get (fields e) "code") "RATE_LIMIT_EXCEEDED" = false ->
  is_duplicate_key e = false ->
  (forall v m,
      sanitize (get (fields e) "value") = Returned v ->
      (if instanceof_Error e
       then sanitize (get (fields e) "message") = Returned m
       else m = "Invalid " ++ ToString (get (fields e) "path") ++ ": " ++ v) ->
      classify sanitize e (initial_locals a u)
      = Returned (Locals.mk 400 m [] "ERR-CAST-400"))
  /\ (forall x,
        sanitize (get (fields e) "value") = Thrown x ->
        classify sanitize e (initial_locals a u) = Thrown x).
Proof.
  intros e Hcls Hj Hx Hc Hd.
  open_rules. rewrite Hcls, Hd, Hc, Hx, Hj. cbn [and_then]. split.
  - intros v m Hv Hm. rewrite Hv. cbn [and_then].
    unfold fallback_rule, fallback_applies. cbn.
    destruct (instanceof_Error e); cbn.
    + rewrite Hm. reflexivity.
    + subst m. reflexivity.
  - intros x Hv. rewrite Hv. reflexivity.
Qed.

Lemma fold_put_later (f : obj -> value) (after : list obj) :
  forall (acc : obj) (p : string),
    (forall err', In err' after -> field_path err' <> p) ->
    get (fold_left (fun acc err => put acc (field_path err) (f err)) after acc) p
    = get acc p.
Proof.
  induction after as [|err' after IH]; intros acc p Hp; [reflexivity|].
  cbn [fold_left]. rewrite IH by (intros x Hx; apply Hp; now right).
  apply get_put_other. apply Hp. now left.
Qed.

(** A mongoose validation error that no later branch matches, when
    [sanitize] returns on the message of every field error and on the
    message of the error: it gets status 400 and the code of the branch,
    and its details map the path of each field error to the sanitized
    message of the last field error with that path. The message is
    "Validation failed" when the value is not an instance of Error or when
    the details hold a non-empty entry called message, and the error's own
    text otherwise. *)
Theorem validation_error_details
  (a : IErrorHandler.t) (u : string) (errors : list (string * obj)) :
  let e := IErrorHandler.error a in
  cls e = ValidationError errors ->
  is_string (get (fields e) "name") "JsonWebTokenError" = false ->
  is_string (get (fields e) "name") "TokenExpiredError" = false ->
  is_string (get (fields e) "code") "RATE_LIMIT_EXCEEDED" = false ->
  is_duplicate_key e = false ->
  responds sanitize e = true ->
  exists l,
    classify sanitize e (initial_locals a u) = Returned l
    /\ Locals.statusCode l = 400%Z
    /\ Locals.errorCode l = "ERR-VALIDATION-400"
    /\ (forall before err after,
          map snd errors = (before ++ err :: after)%list ->
          (forall err', In err' after -> field_path err' <> field_path err) ->
          exists text,
            sanitize (get err "message") = Returned text
            /\ get (Locals.errorDetails l) (field_path err) = VStr text)
    /\ (errors = [] -> Locals.errorDetails l = [])
    /\ (if instanceof_Error e && negb (truthy (get (Locals.errorDetails l) "message"))
        then sanitize (get (fields e) "message") = Returned (Locals.message l)
        else Locals.message l = ERROR_MESSAGES.validationFailed).
Proof.
  intros e Hcls Hj Hx Hc Hd Hr.
  destruct (classify_responds sanitize e (initial_locals a u) Hr) as [l Hl].
  exists l. split; [exact Hl|].
  destruct (classify_after _ _ _ Hl) as (l1 & H1 & -> & -> & -> & Hm).
  assert (Ht : forallb (fun err => sanitizes sanitize (get err "message")) (map snd errors)
               = true).
  { unfold responds, mongoose_texts_sanitize in Hr. rewrite Hcls in Hr.
    apply andb_prop in Hr. destruct Hr as [Hr _].
    apply andb_prop in Hr. destruct Hr as [Hr _]. exact Hr. }
  revert H1. unfold earlier_rules, duplicate_rule, rate_limit_rule, jwt_expired_rule,
    jwt_invalid_rule, app_rule, validation_rule, cast_rule.
  rewrite Hcls, Hd, Hc, Hx, Hj, (field_errors_return sanitize _ Ht). cbn [and_then].
  intros H1. injection H1 as <-. unfold fallback_applies in Hm.
  cbn [Locals.statusCode Locals.errorCode Locals.errorDetails Locals.message] in *.
  split; [reflexivity|]. split; [reflexivity|]. split; [|split].
  - intros before err after Heq Hlater.
    assert (Hin : In err (map snd errors)) by (rewrite Heq; apply in_elt).
    pose proof (proj1 (forallb_forall _ _) Ht err Hin) as Hs.
    exists (sanitized sanitize (get err "message")).
    split; [exact (sanitizes_returned sanitize _ Hs)|].
    rewrite Heq, fold_left_app. cbn [fold_left].
    rewrite (fold_put_later (fun err0 => VStr (sanitized sanitize (get err0 "message")))
               after _ _ Hlater).
    apply get_put_same.
  - intros ->. reflexivity.
  - exact Hm.
Qed.

(** A rate-limit signal that neither the duplicate-key nor the application
    branch matches gets status 429, the code of the branch, and details
    holding the error's retryAfter, or 60 when that is missing or zero. *)
Theorem rate_limit_details (a : IErrorHandler.t) (u : string) :
  let e := IErrorHandler.error a in
  is_string (get (fields e) "code") "RATE_LIMIT_EXCEEDED" = true ->
  (forall own, cls e <> AppError own) ->
  responds sanitize e = true ->
  exists l,
    classify sanitize e (initial_locals a u) = Returned l
    /\ Locals.statusCode l = 429%Z
    /\ Locals.errorCode l = "ERR-RATE-LIMIT-429"
    /\ Locals.errorDetails l
       = [("retryAfter",
           if truthy (get (fields e) "retryAfter")
           then get (fields e) "retryAfter" else VNum 60)]
    /\ (instanceof_Error e = false ->
        Locals.message l = ERROR_MESSAGES.rateLimitExceeded).
Proof.
  intros e Hc Happ Hr.
  destruct (classify_responds sanitize e (initial_locals a u) Hr) as [l Hl].
  exists l. split; [exact Hl|].
  destruct (classify_after _ _ _ Hl) as (l1 & H1 & -> & -> & -> & Hm).
  assert (Hd : is_duplicate_key e = false).
  { unfold is_duplicate_key, is_number. unfold is_string in Hc.
    destruct (get (fields e) "code"); try discriminate. apply andb_false_r. }
  assert (Hl1 : l1 = Locals.mk 429 ERROR_MESSAGES.rateLimitExceeded
                       [("retryAfter", or_value (get (fields e) "retryAfter") (VNum 60))]
                       "ERR-RATE-LIMIT-429").
  { revert H1. unfold earlier_rules, duplicate_rule, rate_limit_rule, app_rule.
    rewrite Hd, Hc. intros H1.
    destruct (cls e) as [| | |own] eqn:Hcls; [| | |exfalso; exact (Happ own eq_refl)];
      unfold validation_rule, cast_rule in H1; rewrite Hcls in H1;
      cbn [and_then] in H1; open_calls H1; injection H1 as <-; reflexivity. }
  subst l1. cbn. repeat split.
  intros He. unfold fallback_applies in Hm. rewrite He in Hm. exact Hm.
Qed.

(** An application error overrides whatever the earlier branches chose:
    whenever the calls of the classification return, the status is the
    error's own, the code is ERR-APP- and that status, the details hold the
    operational flag, and the message is the error's sanitized text. *)
Theorem app_error_overrides
  (a : IErrorHandler.t) (u : string) (own : AppErrorFields) (m : string) :
  let e := IErrorHandler.error a in
  cls e = AppError own ->
  responds sanitize e = true ->
  sanitize (get (fields e) "message") = Returned m ->
  classify sanitize e (initial_locals a u)
  = Returned (Locals.mk (app_statusCode own) m
                [("isOperational", VBool (app_isOperational own))]
                ("ERR-APP-" ++ show_number (app_statusCode own))).
Proof.
  intros e Hcls Hr Hs.
  unfold responds in Hr.
  apply andb_prop in Hr. destruct Hr as [Hr _].
  apply andb_prop in Hr. destruct Hr as [_ Hk].
  unfold classify, earlier_rules, validation_rule, cast_rule.
  rewrite Hcls. cbn [and_then].
  destruct (duplicate_rule_returns sanitize e
              (rate_limit_rule e
                 (jwt_expired_rule e (jwt_invalid_rule e (initial_locals a u)))) Hk)
    as [l ->].
  cbn [and_then]. unfold app_rule. rewrite Hcls, Hs. cbn [and_then].
  unfold fallback_rule, fallback_applies. cbn.
  destruct (instanceof_Error e); cbn; [rewrite Hs|]; reflexivity.
Qed.

(** ** The logging middleware *)

(** Whatever the request, [logRequest] returns and has called [next] once.
    When the request is skipped or the body branch runs to its end, it
    called [next()] and has logged nothing yet: a record is written only
    when the response finishes. When [sanitize] throws on a value of the
    body, the catch block has logged one failure record, under the
    correlation id that was written to the header, has registered no
    listener, and has passed the exception to [next]. *)
Theorem logRequest_calls_next_once (w : World) :
  exists w',
    logRequest sanitize parseFloat w = Ok tt w'
    /\ env w' = env w
    /\ (skip_listed (Request.originalUrl (req w))
        || sampling_skips parseFloat w
        || body_sanitizes sanitize (env w) (req w) = true ->
        next_calls w' = (next_calls w ++ [None])%list /\ sink w' = sink w)
    /\ (skip_listed (Request.originalUrl (req w)) = false ->
        sampling_skips parseFloat w = false ->
        body_sanitizes sanitize (env w) (req w) = false ->
        exists x f,
          next_calls w' = (next_calls w ++ [Some x])%list
          /\ sink w' = (sink w ++ [(Level.error, FailureRecord f)])%list
          /\ Response.on_finish (res w') = Response.on_finish (res w)
          /\ MiddlewareFailure.message f = "Error in logRequest middleware"
          /\ MiddlewareFailure.error f = exn_message x
          /\ (truthy (chosen_correlationId w) = true ->
              MiddlewareFailure.correlationId f = chosen_correlationId w
              /\ Request.header (req w') "x-correlation-id" = chosen_correlationId w)
          /\ exists o p,
               Request.body (req w) = VObj o
               /\ In p SENSITIVE_PARAMS
               /\ truthy (get o p) = true
               /\ sanitize (get o p) = Thrown x).
Proof.
  rewrite logRequest_run. eexists. split; [reflexivity|].
  destruct (skip_listed (Request.originalUrl (req w))) eqn:Hskip.
  { cbn. repeat split; try discriminate. }
  destruct (sampling_skips parseFloat w) eqn:Hs.
  { unfold after_sampling.
    destruct (PrimFloat.ltb (LOG_SAMPLING_RATE parseFloat (env w)) 1);
      cbn; repeat split; try discriminate. }
  cbn [orb].
  destruct (body_sanitizes sanitize (env w) (req w)) eqn:Hb.
  - rewrite (sanitized_body_returns sanitize _ _ Hb).
    destruct (logged_world_fields parseFloat w (kept_body sanitize (env w) (req w)))
      as (He & _ & Hsink & _ & _ & _ & _ & Hn & _).
    cbn zeta in He, Hsink, Hn. repeat split; try assumption; discriminate.
  - destruct (sanitized_body_throws sanitize _ _ Hb)
      as (o & p & x & _ & _ & Hbody & Hin & Ht & Hsx & ->).
    destruct (failure_world_fields parseFloat w x)
      as (He & Hq & Hn & Hon & f & Hsink & Hmsg & Herr & Hid).
    cbn zeta in He, Hq, Hn, Hon, Hsink.
    split; [exact He|]. split; [discriminate|].
    intros _ _ _. exists x, f.
    repeat (split; [assumption|]). split.
    + intros Hc. split; [exact (Hid Hc)|]. rewrite Hq. apply tagged_header.
    + exists o, p. repeat split; assumption.
Qed.

Lemma put_keeps_keys (o : obj) (k : string) (v : value) :
  truthy (get o k) = true -> keys (put o k v) = keys o.
Proof.
  unfold keys. induction o as [|[k0 v0] o IH]; cbn; [discriminate|].
  destruct (String.eqb_spec k0 k) as [->|Hn]; cbn; [reflexivity|].
  intros H. now rewrite IH.
Qed.

Lemma replace_keeps_keys (f : value -> value) (ps : list string) :
  forall o, keys (fold_left (replace_truthy f) ps o) = keys o.
Proof.
  induction ps as [|p ps IH]; intros o; [reflexivity|].
  cbn [fold_left]. rewrite IH. unfold replace_truthy.
  destruct (truthy (get o p)) eqn:Ht; [now apply put_keeps_keys | reflexivity].
Qed.

Lemma sensitive_In (p : string) : sensitive p = true <-> In p SENSITIVE_PARAMS.
Proof.
  unfold sensitive. rewrite existsb_exists. split.
  - intros (x & Hin & Heq). apply String.eqb_eq in Heq. now subst.
  - intros Hin. exists p. split; [assumption | apply String.eqb_refl].
Qed.

Lemma replace_value (f : value -> value) (o : obj) (p : string) :
  get (fold_left (replace_truthy f) SENSITIVE_PARAMS o) p
  = if sensitive p && truthy (get o p) then f (get o p) else get o p.
Proof.
  destruct (sensitive p) eqn:Hs; cbn [andb].
  - apply (replace_listed f _ SENSITIVE_PARAMS_NoDup). now apply sensitive_In.
  - apply replace_other. intros Hin. apply sensitive_In in Hin. congruence.
Qed.

(** Masking the query neither adds nor removes a parameter nor changes the
    order; a parameter keeps its value unless it is one of the four
    sensitive names and its value is truthy, in which case the value
    becomes the mask. *)
Theorem mask_query_spec (q : obj) (p : string) :
  keys (mask_query q) = keys q
  /\ get (mask_query q) p
     = if sensitive p && truthy (get q p) then VStr "****" else get q p.
Proof.
  split.
  - exact (replace_keeps_keys (fun _ => VStr "****") SENSITIVE_PARAMS q).
  - exact (replace_value (fun _ => VStr "****") q p).
Qed.

(** The body branch has three ends. It keeps no body in production, for a
    method other than POST and PUT, and when the body is not an object. It
    throws what [sanitize] throws on a truthy value under a sensitive name.
    Otherwise it keeps a copy with the keys of the body in their order and
    every value as it came in, except that a truthy value under a sensitive
    name is replaced by what [sanitize] returns for it. *)
Theorem sanitized_body_spec (e : ProcessEnv.t) (r : Request.t) :
  match sanitized_body sanitize e r with
  | Returned (Some b) =>
      not_production e = true
      /\ (Request.method r = "POST" \/ Request.method r = "PUT")
      /\ exists o,
           Request.body r = VObj o
           /\ keys b = keys o
           /\ forall p,
                if sensitive p && truthy (get o p)
                then exists text,
                       sanitize (get o p) = Returned text /\ get b p = VStr text
                else get b p = get o p
  | Returned None =>
      not_production e = false
      \/ (Request.method r <> "POST" /\ Request.method r <> "PUT")
      \/ forall o, Request.body r <> VObj o
  | Thrown x =>
      not_production e = true
      /\ (Request.method r = "POST" \/ Request.method r = "PUT")
      /\ exists o p,
           Request.body r = VObj o
           /\ sensitive p = true
           /\ truthy (get o p) = true
           /\ sanitize (get o p) = Thrown x
  end.
Proof.
  assert (Hmethod : existsb (String.eqb (Request.method r)) ["POST"; "PUT"] = true ->
                    Request.method r = "POST" \/ Request.method r = "PUT").
  { cbn. destruct (String.eqb_spec (Request.method r) "POST"); [now left|].
    destruct (String.eqb_spec (Request.method r) "PUT"); [now right | discriminate]. }
  destruct (body_sanitizes sanitize e r) eqn:Hb.
  - rewrite (sanitized_body_returns sanitize _ _ Hb).
    unfold body_sanitizes in Hb. unfold kept_body.
    destruct (not_production e); cbn [andb negb orb] in *; [|now left].
    destruct (existsb (String.eqb (Request.method r)) ["POST"; "PUT"]) eqn:Hm;
      cbn [negb orb] in *.
    + destruct (Request.body r) as [| | | | |o]; try (right; right; discriminate).
      split; [reflexivity|]. split; [exact (Hmethod eq_refl)|].
      exists o. split; [reflexivity|]. split.
      * exact (replace_keeps_keys (fun v => VStr (sanitized sanitize v)) SENSITIVE_PARAMS o).
      * intros p. rewrite (replace_value (fun v => VStr (sanitized sanitize v)) o p).
        destruct (sensitive p) eqn:Hp; cbn [andb]; [|reflexivity].
        destruct (truthy (get o p)) eqn:Ht; [|reflexivity].
        exists (sanitized sanitize (get o p)). split; [|reflexivity].
        apply sanitizes_returned.
        unfold values_sanitize in Hb. rewrite forallb_forall in Hb.
        specialize (Hb p (proj1 (sensitive_In p) Hp)). rewrite Ht in Hb. exact Hb.
    + right; left. cbn in Hm.
      destruct (String.eqb_spec (Request.method r) "POST"); [discriminate|].
      destruct (String.eqb_spec (Request.method r) "PUT"); [discriminate|]. now split.
  - destruct (sanitized_body_throws sanitize _ _ Hb)
      as (o & p & x & Hnp & Hm & Hbody & Hin & Ht & Hsx & ->).
    split; [exact Hnp|]. split; [exact (Hmethod Hm)|].
    exists o, p. repeat split; try assumption. now apply sensitive_In.
Qed.

(** *** From the request to the record *)

Lemma nonempty_keys (o o' : obj) : keys o = keys o' -> nonempty o = nonempty o'.
Proof. destruct o, o'; cbn; congruence. Qed.

Lemma mask_query_nonempty (q : obj) : nonempty (mask_query q) = nonempty q.
Proof.
  apply nonempty_keys.
  exact (replace_keeps_keys (fun _ => VStr "****") SENSITIVE_PARAMS q).
Qed.

(** The record of a logged request describes the request as it came in and
    the response as it went out: method, URL, address, user agent, masked
    query (left out when there is none), the body as the body branch left
    it and the time are those at entry; status and elapsed time are those
    at finish; the level is error from status 400 on; and the headers are
    attached, as they are at finish, only outside production. *)
Theorem request_record (w : World) :
  skip_listed (Request.originalUrl (req w)) = false ->
  sampling_skips parseFloat w = false ->
  body_sanitizes sanitize (env w) (req w) = true ->
  Response.on_finish (res w) = [] ->
  exists w',
    logRequest sanitize parseFloat w = Ok tt w'
    /\ forall w'',
         Response.on_finish (res w'') = Response.on_finish (res w') ->
         exists d,
           emit_finish w''
           = Ok tt
               (with_sink
                  (sink w''
                   ++ [(if (400 <=? Response.statusCode (res w''))%Z
                        then Level.error else Level.info,
                        RequestLog d
                          (if not_production (env w'')
                           then Some (Request.headers (req w'')) else None))])%list
                  w'')
           /\ LogData.method d = Request.method (req w)
           /\ LogData.url d = Request.originalUrl (req w)
           /\ LogData.ip d = Request.ip (req w)
           /\ LogData.userAgent d = Request.header (req w) "user-agent"
           /\ LogData.query d
              = (if nonempty (Request.query (req w))
                 then Some (mask_query (Request.query (req w))) else None)
           /\ sanitized_body sanitize (env w) (req w) = Returned (LogData.body d)
           /\ LogData.timestamp d = now w
           /\ LogData.statusCode d = Some (Response.statusCode (res w''))
           /\ LogData.responseTime d = Some (hrtime_since (hrtime w) (hrtime w'')).
Proof.
  intros Hskip Hs Hb Hl.
  rewrite logRequest_run, Hskip, Hs, (sanitized_body_returns sanitize _ _ Hb).
  eexists. split; [reflexivity|]. intros w'' Hfin.
  destruct (logged_world_fields parseFloat w (kept_body sanitize (env w) (req w)))
    as (_ & _ & _ & Hon & _).
  rewrite emit_finish_run, Hfin, Hon, Hl. cbn [app map].
  eexists. split; [reflexivity|].
  unfold registered_listener, initial_logData, LogData.finished, tagged_request,
    Request.with_headers, Request.header.
  cbn [captured_logData captured_startTime req env now with_req
       Request.method Request.originalUrl Request.ip Request.headers Request.query
       LogData.method LogData.url LogData.ip LogData.userAgent LogData.query
       LogData.body LogData.timestamp LogData.statusCode LogData.responseTime
       LogData.correlationId].
  rewrite mask_query_nonempty.
  repeat split. apply get_put_other. discriminate.
Qed.

(** A sampling rate that is not below one, and so an unset or empty
    LOG_SAMPLING_RATE, logs every request that is not skip-listed and whose
    body branch runs to its end, and no random number is drawn for it. *)
Theorem full_rate_logs_every_request (w : World) :
  ProcessEnv.LOG_SAMPLING_RATE (env w) = None
  \/ ProcessEnv.LOG_SAMPLING_RATE (env w) = Some ""
  \/ PrimFloat.ltb (LOG_SAMPLING_RATE parseFloat (env w)) 1 = false ->
  skip_listed (Request.originalUrl (req w)) = false ->
  body_sanitizes sanitize (env w) (req w) = true ->
  exists w' sanitizedBody,
    logRequest sanitize parseFloat w = Ok tt w'
    /\ sanitized_body sanitize (env w) (req w) = Returned sanitizedBody
    /\ random_drawn w' = random_drawn w
    /\ Response.on_finish (res w')
       = (Response.on_finish (res w) ++ [registered_listener w sanitizedBody])%list.
Proof.
  intros H Hskip Hb.
  assert (Hr : PrimFloat.ltb (LOG_SAMPLING_RATE parseFloat (env w)) 1 = false).
  { unfold LOG_SAMPLING_RATE. destruct H as [-> | [-> | H]]; [reflexivity | reflexivity |].
    exact H. }
  assert (Hs : sampling_skips parseFloat w = false)
    by (unfold sampling_skips; rewrite Hr; reflexivity).
  rewrite logRequest_run, Hskip, Hs, (sanitized_body_returns sanitize _ _ Hb).
  eexists _, _. split; [reflexivity|]. split; [reflexivity|].
  destruct (logged_world_fields parseFloat w (kept_body sanitize (env w) (req w)))
    as (_ & _ & _ & Hon & _ & _ & Hrd & _).
  cbn zeta in Hrd, Hon. rewrite Hrd. unfold after_sampling. rewrite Hr. auto.
Qed.

(** A logged request that ends in the error formatter leaves two records
    under one correlation id: the formatter's, at level error, and at finish
    the request's, with the status the formatter set and at level error
    exactly when that status is 400 or more. *)
Theorem logged_request_then_error (a : IErrorHandler.t) (w : World) :
  skip_listed (Request.originalUrl (req w)) = false ->
  sampling_skips parseFloat w = false ->
  body_sanitizes sanitize (env w) (req w) = true ->
  Response.on_finish (res w) = [] ->
  truthy (chosen_correlationId w) = true ->
  responds sanitize (IErrorHandler.error a) = true ->
  exists w1 w2 w3 entry level d headers,
    logRequest sanitize parseFloat w = Ok tt w1
    /\ errorHandler sanitize a w1 = Ok tt w2
    /\ emit_finish w2 = Ok tt w3
    /\ sink w3
       = (sink w ++ [(Level.error, ErrorRecord entry); (level, RequestLog d headers)])%list
    /\ ErrorLog.correlationId entry = chosen_correlationId w
    /\ LogData.correlationId d = chosen_correlationId w
    /\ LogData.statusCode d = Some (ErrorLog.statusCode entry)
    /\ level = (if (400 <=? ErrorLog.statusCode entry)%Z then Level.error else Level.info).
Proof.
  intros Hskip Hs Hb Hl Hc Hr.
  rewrite logRequest_run, Hskip, Hs, (sanitized_body_returns sanitize _ _ Hb).
  destruct (logged_world_fields parseFloat w (kept_body sanitize (env w) (req w)))
    as (He & Hq & Hsink & Hon & _).
  cbn zeta in He, Hq, Hsink, Hon.
  remember (logged_world parseFloat w (kept_body sanitize (env w) (req w))) as lw eqn:Elw.
  clear Elw.
  destruct (classify_responds sanitize (IErrorHandler.error a)
              (initial_locals a (formatter_code_uuid lw)) Hr) as [l Hcl].
  assert (Hx : truthy (Request.header (req lw) "x-correlation-id") = true)
    by (rewrite Hq, tagged_header; exact Hc).
  eexists lw, _, _, _, _, _, _. split; [reflexivity|].
  rewrite errorHandler_run. cbn zeta. rewrite Hcl.
  unfold formatter_correlationId, after_correlation. rewrite Hx.
  split; [reflexivity|]. rewrite emit_finish_run. split; [reflexivity|].
  cbn. rewrite Hon, Hl, Hsink. cbn. rewrite <- app_assoc. cbn.
  split; [reflexivity|]. rewrite Hq, tagged_header. repeat split.
Qed.

(** A logged request that ends in the success formatter leaves one record,
    written at finish, with the status the formatter set (200 when none was
    given), at level info when that status is below 400, under the
    correlation id the middleware chose. *)
Theorem logged_request_then_success (a : ISuccessHandler.t) (w : World) :
  skip_listed (Request.originalUrl (req w)) = false ->
  sampling_skips parseFloat w = false ->
  body_sanitizes sanitize (env w) (req w) = true ->
  Response.on_finish (res w) = [] ->
  exists w1 w2 w3 level d headers,
    logRequest sanitize parseFloat w = Ok tt w1
    /\ successHandler a w1 = Ok tt w2
    /\ emit_finish w2 = Ok tt w3
    /\ sink w3 = (sink w ++ [(level, RequestLog d headers)])%list
    /\ LogData.correlationId d = chosen_correlationId w
    /\ LogData.statusCode d = Some (default 200%Z (ISuccessHandler.statusCode a))
    /\ level = (if (400 <=? default 200%Z (ISuccessHandler.statusCode a))%Z
                then Level.error else Level.info)
    /\ Response.sent (res w3)
       = Some (SuccessBody
                 (SuccessResponse.mk true
                    (default "Success" (ISuccessHandler.message a))
                    (default VNull (ISuccessHandler.data a)))).
Proof.
  intros Hskip Hs Hb Hl.
  rewrite logRequest_run, Hskip, Hs, (sanitized_body_returns sanitize _ _ Hb).
  destruct (logged_world_fields parseFloat w (kept_body sanitize (env w) (req w)))
    as (He & Hq & Hsink & Hon & _).
  cbn zeta in He, Hq, Hsink, Hon.
  remember (logged_world parseFloat w (kept_body sanitize (env w) (req w))) as lw eqn:Elw.
  clear Elw.
  eexists lw, _, _, _, _, _. split; [reflexivity|].
  split; [reflexivity|]. rewrite emit_finish_run. split; [reflexivity|].
  cbn. rewrite Hon, Hl, Hsink. cbn. repeat split.
Qed.

(** In production neither the body nor the headers of a request reach the
    log, whatever the method and whatever the body holds. *)
Theorem production_logs_neither_body_nor_headers (w : World) :
  skip_listed (Request.originalUrl (req w)) = false ->
  sampling_skips parseFloat w = false ->
  Response.on_finish (res w) = [] ->
  ProcessEnv.NODE_ENV (env w) = Some "production" ->
  exists w',
    logRequest sanitize parseFloat w = Ok tt w'
    /\ forall w'',
         Response.on_finish (res w'') = Response.on_finish (res w') ->
         env w'' = env w ->
         exists level d,
           emit_finish w''
           = Ok tt (with_sink (sink w'' ++ [(level, RequestLog d None)])%list w'')
           /\ LogData.body d = None.
Proof.
  intros Hskip Hs Hl Hp.
  assert (Hnp : not_production (env w) = false)
    by (unfold not_production; rewrite Hp; reflexivity).
  destruct (production_body_sanitizes sanitize (env w) (req w) Hnp) as [Hb Hk].
  rewrite logRequest_run, Hskip, Hs, (sanitized_body_returns sanitize _ _ Hb), Hk.
  eexists. split; [reflexivity|]. intros w'' Hfin He.
  destruct (logged_world_fields parseFloat w None) as (_ & _ & _ & Hon & _).
  rewrite emit_finish_run, Hfin, Hon, Hl. cbn [app map].
  unfold finish_record. rewrite He, Hnp. eexists _, _. split; reflexivity.
Qed.

End Coverage.

(** ** Start-up *)

(** When the connection succeeds the process does not exit and writes
    nothing to stderr; the last thing it prints is the host it connected
    to, and it is listening. *)
Theorem connection_success_keeps_running (e : ProcessEnv.t) (host : string) :
  let p := Startup.startup e (Startup.Connected host) in
  Startup.exit_code p = None
  /\ Startup.pending p = []
  /\ last (Startup.trace p) (Startup.Exit 0) = Startup.Stdout ("MongoDB Connected: " ++ host)
  /\ In (Startup.Listen (Startup.PORT e)) (Startup.trace p)
  /\ Forall (fun ef => match ef with
                       | Startup.Exit _ | Startup.Stderr _ => False
                       | _ => True
                       end) (Startup.trace p).
Proof.
  cbn. repeat split.
  - tauto.
  - repeat constructor.
Qed.


(** ** The further properties at concrete inputs *)

Lemma expired_token_status_and_code_witness :
  let a := IErrorHandler.mk None None expired_token_object in
  is_string (get (fields expired_token_object) "name") "TokenExpiredError" = true
  /\ responds plain_text expired_token_object = true
  /\ exists l,
       classify plain_text expired_token_object (initial_locals a (sample_uuid 1))
       = Returned l
       /\ Locals.statusCode l = 401%Z
       /\ Locals.errorCode l = "ERR-JWT-EXPIRED-401"
       /\ Locals.message l = ERROR_MESSAGES.tokenExpired.
Proof.
  split; [reflexivity|]. split; [reflexivity|].
  destruct (expired_token_status_and_code plain_text
              (IErrorHandler.mk None None expired_token_object) (sample_uuid 1)
              eq_refl eq_refl ltac:(intros own H; discriminate H) eq_refl)
    as (l & Hc & Hs & Hcode & Hm).
  exists l. repeat split; try assumption. exact (Hm eq_refl).
Defined.

Lemma invalid_token_status_and_code_witness :
  let a := IErrorHandler.mk None None invalid_token_error in
  is_string (get (fields invalid_token_error) "name") "JsonWebTokenError" = true
  /\ responds plain_text invalid_token_error = true
  /\ exists l,
       classify plain_text invalid_token_error (initial_locals a (sample_uuid 1))
       = Returned l
       /\ Locals.statusCode l = 401%Z
       /\ Locals.errorCode l = "ERR-JWT-INVALID-401".
Proof.
  split; [reflexivity|]. split; [reflexivity|].
  destruct (invalid_token_status_and_code plain_text
              (IErrorHandler.mk None None invalid_token_error) (sample_uuid 1)
              eq_refl eq_refl ltac:(intros own H; discriminate H) eq_refl)
    as (l & Hc & Hs & Hcode & _).
  exists l. repeat split; assumption.
Defined.

Lemma cast_error_status_and_code_witness :
  cls cast_error = CastError
  /\ plain_text (VStr "abc") = Returned "abc"
  /\ classify plain_text cast_error
       (initial_locals (IErrorHandler.mk None None cast_error) (sample_uuid 1))
     = Returned (Locals.mk 400 "Cast to ObjectId failed for value abc at path _id" []
                   "ERR-CAST-400")
  /\ exists x,
       plain_text (get (fields cast_error_of_array) "value") = Thrown x
       /\ classify plain_text cast_error_of_array
            (initial_locals (IErrorHandler.mk None None cast_error_of_array) (sample_uuid 1))
          = Thrown x.
Proof.
  split; [reflexivity|]. split; [reflexivity|]. split.
  - exact (proj1 (cast_error_status_and_code plain_text
                    (IErrorHandler.mk None None cast_error) (sample_uuid 1)
                    eq_refl eq_refl eq_refl eq_refl eq_refl)
             "abc" _ eq_refl eq_refl).
  - exists TypeError_not_text. split; [reflexivity|].
    exact (proj2 (cast_error_status_and_code plain_text
                    (IErrorHandler.mk None None cast_error_of_array) (sample_uuid 1)
                    eq_refl eq_refl eq_refl eq_refl eq_refl)
             TypeError_not_text eq_refl).
Defined.

Lemma validation_error_details_witness :
  let a := IErrorHandler.mk None None validation_error in
  responds plain_text validation_error = true
  /\ exists l,
       classify plain_text validation_error (initial_locals a (sample_uuid 1)) = Returned l
       /\ Locals.errorCode l = "ERR-VALIDATION-400"
       /\ get (Locals.errorDetails l) "email" = VStr "Email is required"
       /\ Locals.message l = "Product validation failed".
Proof.
  split; [reflexivity|].
  destruct (validation_error_details plain_text
              (IErrorHandler.mk None None validation_error) (sample_uuid 1) _
              eq_refl eq_refl eq_refl eq_refl eq_refl eq_refl)
    as (l & Hc & _ & Hcode & Hd & _ & Hm).
  exists l. split; [exact Hc|]. split; [exact Hcode|].
  assert (He : get (Locals.errorDetails l) "email" = VStr "Email is required").
  { destruct (Hd [] [("path", VStr "email"); ("message", VStr "Email is required")]
                [[("path", VStr "price"); ("message", VStr "Price must be positive")]]
                eq_refl) as (text & Ht & Hg).
    - intros err' [<- | []]. discriminate.
    - cbn in Ht. injection Ht as <-. exact Hg. }
  split; [exact He|].
  injection Hc as <-. reflexivity.
Defined.

Lemma rate_limit_details_witness :
  let a := IErrorHandler.mk None None rate_limit_error in
  is_string (get (fields rate_limit_error) "code") "RATE_LIMIT_EXCEEDED" = true
  /\ responds plain_text rate_limit_error = true
  /\ exists l,
       classify plain_text rate_limit_error (initial_locals a (sample_uuid 1)) = Returned l
       /\ Locals.statusCode l = 429%Z
       /\ Locals.errorDetails l = [("retryAfter", VNum 60)].
Proof.
  split; [reflexivity|]. split; [reflexivity|].
  destruct (rate_limit_details plain_text
              (IErrorHandler.mk None None rate_limit_error) (sample_uuid 1)
              eq_refl ltac:(intros own H; discriminate H) eq_refl)
    as (l & Hc & Hs & _ & Hd & _).
  exists l. repeat split; assumption.
Defined.

Lemma app_error_overrides_witness :
  let a := IErrorHandler.mk (Some 500%Z) (Some "Something broke") app_error in
  responds plain_text app_error = true
  /\ plain_text (get (fields app_error) "message") = Returned "Product not found"
  /\ classify plain_text app_error (initial_locals a (sample_uuid 1))
     = Returned (Locals.mk 404 "Product not found" [("isOperational", VBool true)]
                   "ERR-APP-404").
Proof.
  split; [reflexivity|]. split; [reflexivity|].
  exact (app_error_overrides plain_text
           (IErrorHandler.mk (Some 500%Z) (Some "Something broke") app_error)
           (sample_uuid 1) (mkAppError 404 true) "Product not found"
           eq_refl eq_refl eq_refl).
Defined.

Lemma error_is_logged_as_sent_witness :
  let a := IErrorHandler.mk None None app_error in
  let w := fresh_world development get_orders sample_uuid in
  responds plain_text app_error = true
  /\ exists w' entry r,
       errorHandler plain_text a w = Ok tt w'
       /\ sink w' = [(Level.error, ErrorRecord entry)]
       /\ sent_error w' = Some r
       /\ ErrorLog.message entry = ErrorResponse.message r
       /\ ErrorLog.errorCode entry = ErrorResponse.errorCode r.
Proof.
  split; [reflexivity|].
  destruct (error_is_logged_as_sent plain_text
              (IErrorHandler.mk None None app_error)
              (fresh_world development get_orders sample_uuid) eq_refl)
    as (w' & entry & r & Hrun & Hsink & Hsent & _ & Hm & Hc & _).
  exists w', entry, r. repeat split; assumption.
Defined.

Lemma formatter_reuses_inbound_id_witness :
  let a := IErrorHandler.mk None None plain_error in
  let w := fresh_world production get_orders_with_id sample_uuid in
  truthy (Request.header (req w) "x-correlation-id") = true
  /\ responds plain_text plain_error = true
  /\ exists w' entry,
       errorHandler plain_text a w = Ok tt w'
       /\ sink w' = [(Level.error, ErrorRecord entry)]
       /\ ErrorLog.correlationId entry = VStr "trace-7"
       /\ uuid_drawn w' = 1.
Proof.
  split; [reflexivity|]. split; [reflexivity|].
  exact (formatter_reuses_inbound_id plain_text
           (IErrorHandler.mk None None plain_error)
           (fresh_world production get_orders_with_id sample_uuid) eq_refl eq_refl).
Defined.

Lemma native_error_message_is_own_text_witness :
  let a := IErrorHandler.mk (Some 404%Z) (Some "Not found") plain_error in
  let w := fresh_world production get_orders sample_uuid in
  instanceof_Error plain_error = true
  /\ responds plain_text plain_error = true
  /\ exists w' r,
       errorHandler plain_text a w = Ok tt w'
       /\ sent_error w' = Some r
       /\ ErrorResponse.message r = "boom".
Proof.
  split; [reflexivity|]. split; [reflexivity|].
  destruct (native_error_message_is_own_text plain_text
              (IErrorHandler.mk (Some 404%Z) (Some "Not found") plain_error)
              (fresh_world production get_orders sample_uuid)
              eq_refl ltac:(intros errors H; discriminate H) eq_refl)
    as (w' & r & Hrun & Hsent & Hm).
  exists w', r. split; [exact Hrun|]. split; [exact Hsent|].
  injection Hm as <-. reflexivity.
Defined.

Lemma unmatched_error_defaults_witness :
  let a := IErrorHandler.mk (Some 404%Z) (Some "No such route") thrown_object in
  let w := fresh_world production get_orders sample_uuid in
  matches_a_rule thrown_object = false
  /\ instanceof_Error thrown_object = false
  /\ exists w' r,
       errorHandler plain_text a w = Ok tt w'
       /\ Response.statusCode (res w') = 404%Z
       /\ sent_error w' = Some r
       /\ ErrorResponse.errorCode r = "ERR-404-9b2e4c1a"
       /\ ErrorResponse.details r = None
       /\ ErrorResponse.message r = "No such route".
Proof.
  split; [reflexivity|]. split; [reflexivity|].
  exact (unmatched_error_defaults plain_text
           (IErrorHandler.mk (Some 404%Z) (Some "No such route") thrown_object)
           (fresh_world production get_orders sample_uuid) "No such route"
           eq_refl eq_refl).
Defined.

(** A cast error whose value is an array: [sanitize] throws, and the
    formatter with it, before anything is logged or sent. *)
Lemma formatter_throw_leaves_no_trace_witness :
  let a := IErrorHandler.mk None None cast_error_of_array in
  let w := fresh_world development get_orders sample_uuid in
  exists x w',
    errorHandler plain_text a w = Throw x w'
    /\ plain_text (get (fields cast_error_of_array) "value") = Thrown x
    /\ sink w' = []
    /\ Response.sent (res w') = None
    /\ uuid_drawn w' = 2.
Proof.
  exists TypeError_not_text.
  exists (with_uuid_drawn 2 (fresh_world development get_orders sample_uuid)).
  assert (Hrun : errorHandler plain_text (IErrorHandler.mk None None cast_error_of_array)
                   (fresh_world development get_orders sample_uuid)
                 = Throw TypeError_not_text
                     (with_uuid_drawn 2 (fresh_world development get_orders sample_uuid)))
    by reflexivity.
  destruct (formatter_throw_leaves_no_trace plain_text _ _ _ _ Hrun)
    as (_ & _ & Hsink & Hres & Hu).
  split; [exact Hrun|]. split; [reflexivity|]. split; [exact Hsink|].
  split; [rewrite Hres; reflexivity | exact Hu].
Defined.

(** A login whose token is an array, outside production: the body branch
    throws, one failure record is logged under the identifier that was
    drawn and written to the header, and the exception goes to [next]. *)
Lemma logRequest_calls_next_once_witness :
  let w := fresh_world development post_token_array sample_uuid in
  body_sanitizes plain_text (env w) (req w) = false
  /\ exists w' x f,
       logRequest plain_text parse_rate w = Ok tt w'
       /\ next_calls w' = [Some x]
       /\ sink w' = [(Level.error, FailureRecord f)]
       /\ Response.on_finish (res w') = []
       /\ MiddlewareFailure.error f = exn_message x
       /\ MiddlewareFailure.correlationId f = VStr "3f2504e0-4f89-41d3-9a0c-0305e82c3301"
       /\ Request.header (req w') "x-correlation-id"
          = VStr "3f2504e0-4f89-41d3-9a0c-0305e82c3301".
Proof.
  split; [reflexivity|].
  destruct (logRequest_calls_next_once plain_text parse_rate
              (fresh_world development post_token_array sample_uuid))
    as (w' & Hrun & _ & _ & Hcatch).
  destruct (Hcatch eq_refl eq_refl eq_refl)
    as (x & f & Hn & Hsink & Hon & _ & Herr & Hid & _).
  destruct (Hid eq_refl) as [Hf Hh].
  exists w', x, f. repeat split; assumption.
Defined.

Lemma request_record_witness :
  let w := fresh_world development get_search sample_uuid in
  skip_listed (Request.originalUrl (req w)) = false
  /\ sampling_skips parse_rate w = false
  /\ body_sanitizes plain_text (env w) (req w) = true
  /\ exists w' w'' level d headers,
       logRequest plain_text parse_rate w = Ok tt w'
       /\ emit_finish w' = Ok tt w''
       /\ sink w'' = [(level, RequestLog d headers)]
       /\ LogData.query d = Some [("q", VStr "lamp"); ("token", VStr "****")]
       /\ LogData.body d = None
       /\ LogData.statusCode d = Some 200%Z.
Proof.
  split; [reflexivity|]. split; [reflexivity|]. split; [reflexivity|].
  destruct (request_record plain_text parse_rate
              (fresh_world development get_search sample_uuid)
              eq_refl eq_refl eq_refl eq_refl)
    as (w' & Hrun & Hfin).
  destruct (Hfin w' eq_refl)
    as (d & He & _ & _ & _ & _ & Hq & Hb & _ & Hs & _).
  assert (Hw : sink w' = [] /\ Response.statusCode (res w') = 200%Z).
  { rewrite logRequest_run in Hrun. injection Hrun as <-. split; reflexivity. }
  destruct Hw as [Hsink Hst].
  eexists w', _, _, d, _. split; [exact Hrun|]. split; [exact He|].
  cbn [sink with_sink]. rewrite Hsink. split; [reflexivity|].
  split; [exact Hq|]. split; [|rewrite Hs, Hst; reflexivity].
  cbn in Hb. injection Hb as <-. reflexivity.
Defined.

Lemma full_rate_logs_every_request_witness :
  let w := fresh_world production get_orders sample_uuid in
  ProcessEnv.LOG_SAMPLING_RATE (env w) = None
  /\ skip_listed (Request.originalUrl (req w)) = false
  /\ body_sanitizes plain_text (env w) (req w) = true
  /\ exists w',
       logRequest plain_text parse_rate w = Ok tt w'
       /\ random_drawn w' = 0
       /\ length (Response.on_finish (res w')) = 1.
Proof.
  split; [reflexivity|]. split; [reflexivity|]. split; [reflexivity|].
  destruct (full_rate_logs_every_request plain_text parse_rate
              (fresh_world production get_orders sample_uuid)
              (or_introl eq_refl) eq_refl eq_refl)
    as (w' & b & Hrun & _ & Hr & Hon).
  exists w'. split; [exact Hrun|]. split; [exact Hr|]. rewrite Hon. reflexivity.
Defined.

Lemma logged_request_then_error_witness :
  let a := IErrorHandler.mk None None plain_error in
  let w := fresh_world development get_orders sample_uuid in
  truthy (chosen_correlationId w) = true
  /\ body_sanitizes plain_text (env w) (req w) = true
  /\ responds plain_text plain_error = true
  /\ exists w3 entry level d headers,
       sink w3 = [(Level.error, ErrorRecord entry); (level, RequestLog d headers)]
       /\ ErrorLog.correlationId entry = VStr (sample_uuid 0)
       /\ LogData.correlationId d = VStr (sample_uuid 0)
       /\ LogData.statusCode d = Some (ErrorLog.statusCode entry).
Proof.
  split; [reflexivity|]. split; [reflexivity|]. split; [reflexivity|].
  destruct (logged_request_then_error plain_text parse_rate
              (IErrorHandler.mk None None plain_error)
              (fresh_world development get_orders sample_uuid)
              eq_refl eq_refl eq_refl eq_refl eq_refl eq_refl)
    as (w1 & w2 & w3 & entry & level & d & headers & _ & _ & _ & Hs & Hc & Hd & Hst & _).
  exists w3, entry, level, d, headers. repeat split; assumption.
Defined.

Lemma logged_request_then_success_witness :
  let a := ISuccessHandler.mk None None None in
  let w := fresh_world development get_orders sample_uuid in
  skip_listed (Request.originalUrl (req w)) = false
  /\ body_sanitizes plain_text (env w) (req w) = true
  /\ exists w3 d headers,
       sink w3 = [(Level.info, RequestLog d headers)]
       /\ LogData.statusCode d = Some 200%Z
       /\ Response.sent (res w3)
          = Some (SuccessBody (SuccessResponse.mk true "Success" VNull)).
Proof.
  split; [reflexivity|]. split; [reflexivity|].
  destruct (logged_request_then_success plain_text parse_rate
              (ISuccessHandler.mk None None None)
              (fresh_world development get_orders sample_uuid)
              eq_refl eq_refl eq_refl eq_refl)
    as (w1 & w2 & w3 & level & d & headers & _ & _ & _ & Hs & _ & Hst & Hl & Hsent).
  exists w3, d, headers. rewrite Hl in Hs. repeat split; assumption.
Defined.

Lemma production_logs_neither_body_nor_headers_witness :
  let w := fresh_world production post_login sample_uuid in
  ProcessEnv.NODE_ENV (env w) = Some "production"
  /\ exists w' w'' level d,
       logRequest plain_text parse_rate w = Ok tt w'
       /\ emit_finish w' = Ok tt w''
       /\ sink w'' = (sink w' ++ [(level, RequestLog d None)])%list
       /\ LogData.body d = None.
Proof.
  split; [reflexivity|].
  destruct (production_logs_neither_body_nor_headers plain_text parse_rate
              (fresh_world production post_login sample_uuid)
              eq_refl eq_refl eq_refl eq_refl)
    as (w' & Hrun & Hfin).
  assert (He : env w' = env (fresh_world production post_login sample_uuid)).
  { rewrite logRequest_run in Hrun. injection Hrun as <-. reflexivity. }
  destruct (Hfin w' eq_refl He) as (level & d & Hemit & Hb).
  eexists w', _, level, d. split; [exact Hrun|]. split; [exact Hemit|].
  split; [reflexivity | exact Hb].
Defined.
